(** * The asynchronous run pipeline of the chat backend

    A shallow embedding of [app/services/agent_runner.py],
    [app/services/integration.py], [app/services/visuals.py],
    [app/api/routes/messages.py], [app/services/enqueue.py] and
    [app/worker/jobs.py], over the tables of [app/db/models.py].

    Python code that mutates the database session, the file system, the
    log and the clock is written in a state-and-exception monad over a
    [World]; the external collaborators (generation capability, HTTP
    endpoint, and the steps that may raise) are oracles of an [Env]. *)

From Stdlib Require Import String Ascii Arith Lia Bool.
From stdpp Require Import base option list strings sorting.

Local Open Scope string_scope.
Local Open Scope list_scope.
Local Open Scope nat_scope.

(** ** Python strings and numbers *)

(** [str.lower()] on one character (ASCII letters). *)
Definition lower_char (c : ascii) : ascii :=
  let n := nat_of_ascii c in
  if (65 <=? n) && (n <=? 90) then ascii_of_nat (n + 32) else c.

(** [s.lower()]. *)
Fixpoint lower (s : string) : string :=
  match s with
  | EmptyString => EmptyString
  | String c s' => String (lower_char c) (lower s')
  end.

(** [pat in s]: [pat] occurs in [s] as a contiguous substring. *)
Fixpoint contains (pat s : string) : bool :=
  String.prefix pat s ||
  match s with
  | EmptyString => false
  | String _ s' => contains pat s'
  end.

(** [s[:n]]. *)
Definition slice_to (n : nat) (s : string) : string := String.substring 0 n s.

Definition digit (d : nat) : ascii := ascii_of_nat (48 + d).

Fixpoint digits (fuel n : nat) (acc : string) : string :=
  match fuel with
  | 0 => acc
  | S fuel' =>
      let acc' := String (digit (n mod 10)) acc in
      if n / 10 =? 0 then acc' else digits fuel' (n / 10) acc'
  end.

(** [str(n)] for a non-negative integer; identifiers (UUIDs in the source)
    are natural numbers here and are printed the same way. *)
Definition str (n : nat) : string := digits (S n) n "".

(** Truthiness of a Python [str]. *)
Definition truthy (s : string) : bool :=
  match s with EmptyString => false | _ => true end.

(** Truthiness of an [Optional[str]] setting: [None] and [""] are falsy. *)
Definition is_set (o : option string) : bool :=
  match o with Some s => truthy s | None => false end.

(** [os.path.join(a, b)] for a relative [b]. *)
Definition path_join (a b : string) : string :=
  if truthy a then
    if String.prefix "/" (String.substring (String.length a - 1) 1 a)
    then a +:+ b else a +:+ "/" +:+ b
  else b.

(** ** Tables of [app/db/models.py] *)

Module RunStatus.
Inductive t := queued | running | succeeded | failed.
Definition eqb (a b : t) : bool :=
  match a, b with
  | queued, queued | running, running
  | succeeded, succeeded | failed, failed => true
  | _, _ => false
  end.
End RunStatus.

Module DeliveryStatus.
Inductive t := pending | succeeded | failed.
End DeliveryStatus.

Module Sender.
Inductive t := user | assistant | system.
End Sender.

(** [content_json]: [{"type": "text", "text": ..., "metadata": ...}] or
    [{"type": "image", "url": ..., "caption": ...}]. *)
Inductive Content :=
| Text (text : string) (metadata : list (string * string))
| Image (url caption : string).

(** [content_json.get("text", "")]. *)
Definition get_text (c : Content) : string :=
  match c with
  | Text t _ => t
  | Image _ _ => ""
  end.

Module Conversation.
Record t := { id : nat; user_id : nat }.
End Conversation.

Module Message.
Record t := {
  id : nat;
  conversation_id : nat;
  sender : Sender.t;
  content_json : Content;
  created_at : nat
}.
End Message.

Module AgentRun.
Record t := {
  id : nat;
  conversation_id : nat;
  trigger_message_id : nat;
  status : RunStatus.t;
  started_at : option nat;
  finished_at : option nat;
  last_error : option string;
  created_at : nat
}.
Definition set_running (now : nat) (r : t) : t :=
  {| id := id r; conversation_id := conversation_id r;
     trigger_message_id := trigger_message_id r;
     status := RunStatus.running; started_at := Some now;
     finished_at := finished_at r; last_error := last_error r;
     created_at := created_at r |}.
Definition set_succeeded (now : nat) (r : t) : t :=
  {| id := id r; conversation_id := conversation_id r;
     trigger_message_id := trigger_message_id r;
     status := RunStatus.succeeded; started_at := started_at r;
     finished_at := Some now; last_error := last_error r;
     created_at := created_at r |}.
Definition set_failed (now : nat) (e : string) (r : t) : t :=
  {| id := id r; conversation_id := conversation_id r;
     trigger_message_id := trigger_message_id r;
     status := RunStatus.failed; started_at := started_at r;
     finished_at := Some now; last_error := Some e;
     created_at := created_at r |}.
End AgentRun.

Module Media.
Record t := {
  id : nat;
  conversation_id : nat;
  message_id : option nat;
  media_type : string;
  storage_path : string;
  created_at : nat
}.
End Media.

Module IntegrationDelivery.
Record t := {
  id : nat;
  run_id : nat;
  status : DeliveryStatus.t;
  attempts : nat;
  last_error : option string;
  created_at : nat;
  updated_at : nat
}.
Definition set_attempts (n now : nat) (d : t) : t :=
  {| id := id d; run_id := run_id d; status := status d; attempts := n;
     last_error := last_error d; created_at := created_at d;
     updated_at := now |}.
Definition set_status (s : DeliveryStatus.t) (now : nat) (d : t) : t :=
  {| id := id d; run_id := run_id d; status := s; attempts := attempts d;
     last_error := last_error d; created_at := created_at d;
     updated_at := now |}.
Definition set_last_error (e : string) (now : nat) (d : t) : t :=
  {| id := id d; run_id := run_id d; status := status d;
     attempts := attempts d; last_error := Some e;
     created_at := created_at d; updated_at := now |}.
End IntegrationDelivery.

Record Db := {
  conversations : list Conversation.t;
  messages : list Message.t;
  agent_runs : list AgentRun.t;
  media : list Media.t;
  integration_deliveries : list IntegrationDelivery.t
}.

Definition with_messages (f : list Message.t -> list Message.t) (d : Db) : Db :=
  {| conversations := conversations d; messages := f (messages d);
     agent_runs := agent_runs d; media := media d;
     integration_deliveries := integration_deliveries d |}.

Definition with_agent_runs (f : list AgentRun.t -> list AgentRun.t) (d : Db) : Db :=
  {| conversations := conversations d; messages := messages d;
     agent_runs := f (agent_runs d); media := media d;
     integration_deliveries := integration_deliveries d |}.

Definition with_media (f : list Media.t -> list Media.t) (d : Db) : Db :=
  {| conversations := conversations d; messages := messages d;
     agent_runs := agent_runs d; media := f (media d);
     integration_deliveries := integration_deliveries d |}.

Definition with_deliveries
    (f : list IntegrationDelivery.t -> list IntegrationDelivery.t) (d : Db) : Db :=
  {| conversations := conversations d; messages := messages d;
     agent_runs := agent_runs d; media := media d;
     integration_deliveries := f (integration_deliveries d) |}.

(** ** The world the pipeline acts on *)

Inductive Level := INFO | WARNING | ERROR.

(** [session] is the view of the open SQLAlchemy session (rows added and
    flushed, attributes assigned); [committed] is what other readers see;
    [observed] lists every state that a commit made visible, oldest first.
    [slept] lists the arguments of [time.sleep], oldest first; [clock] is
    a lower bound of the wall time, advanced by the sleeps.
    [flush_error] is the exception of a flush that has failed since the
    session's last commit. From that moment the database has rolled the
    transaction back, and the session raises at its next statement (see
    [assert_active]); what it had flushed, still listed in [session], can
    no more be read or committed and goes with the session when it is
    closed. The code never calls [db.rollback()]. *)
Record World := {
  session : Db;
  committed : Db;
  observed : list Db;
  files : list string;
  logs : list (Level * string);
  slept : list nat;
  clock : nat;
  uuids : nat;
  queue : list nat;
  flush_error : option string
}.

Inductive Outcome (A : Type) :=
| Ok (a : A)
| Raise (e : string).
Arguments Ok {A} a.
Arguments Raise {A} e.

Definition M (A : Type) : Type := World -> Outcome A * World.

Definition ret {A} (a : A) : M A := fun w => (Ok a, w).

Definition bind {A B} (m : M A) (k : A -> M B) : M B :=
  fun w => match m w with
           | (Ok a, w') => k a w'
           | (Raise e, w') => (Raise e, w')
           end.

Definition raise {A} (e : string) : M A := fun w => (Raise e, w).

(** [try: m except Exception as e: h e]. *)
Definition try_except {A} (m : M A) (h : string -> M A) : M A :=
  fun w => match m w with
           | (Ok a, w') => (Ok a, w')
           | (Raise e, w') => h e w'
           end.

(** Run [m] and hand its outcome to the continuation. *)
Definition attempt {A} (m : M A) : M (Outcome A) :=
  fun w => match m w with (r, w') => (Ok r, w') end.

(** [try: m finally: f]. *)
Definition try_finally {A} (m : M A) (f : M unit) : M A :=
  fun w => match m w with
           | (r, w') => match f w' with
                        | (Ok _, w'') => (r, w'')
                        | (Raise e, w'') => (Raise e, w'')
                        end
           end.

Declare Scope py_scope.
Delimit Scope py_scope with py.
Notation "x <- m ;; k" := (bind m (fun x => k))
  (at level 100, m at next level, k at level 200, right associativity) : py_scope.
Notation "m ;; k" := (bind m (fun _ => k))
  (at level 100, k at level 200, right associativity) : py_scope.
Local Open Scope py_scope.

Definition gets {A} (f : World -> A) : M A := fun w => (Ok (f w), w).

Definition modify (f : World -> World) : M unit := fun w => (Ok tt, f w).

Definition with_session (f : Db -> Db) (w : World) : World :=
  {| session := f (session w); committed := committed w;
     observed := observed w; files := files w; logs := logs w;
     slept := slept w; clock := clock w; uuids := uuids w; queue := queue w;
     flush_error := flush_error w |}.

(** [logger.info / warning / error]. *)
Definition log (l : Level) (msg : string) : M unit :=
  modify (fun w =>
    {| session := session w; committed := committed w;
       observed := observed w; files := files w;
       logs := logs w ++ [(l, msg)];
       slept := slept w; clock := clock w; uuids := uuids w; queue := queue w;
       flush_error := flush_error w |}).

(** [db.commit()], where it returns: the session's view becomes the
    visible state and a new transaction begins, in which no flush has
    failed. *)
Definition commit : M unit :=
  modify (fun w =>
    {| session := session w; committed := session w;
       observed := observed w ++ [session w]; files := files w;
       logs := logs w; slept := slept w; clock := clock w;
       uuids := uuids w; queue := queue w;
       flush_error := None |}).

(** A flush of the session fails with [e]. *)
Definition fail_flush (e : string) (w : World) : World :=
  {| session := session w; committed := committed w;
     observed := observed w; files := files w; logs := logs w;
     slept := slept w; clock := clock w; uuids := uuids w; queue := queue w;
     flush_error := Some e |}.

(** What SQLAlchemy's [PendingRollbackError] says of a session whose flush
    failed with [e] (the library appends a link to its documentation,
    which is left out). *)
Definition PendingRollbackError (e : string) : string :=
  "This Session's transaction has been rolled back due to a previous "
  +:+ "exception during flush. To begin a new transaction with this "
  +:+ "Session, first issue Session.rollback(). Original exception was: "
  +:+ e.

(** What a statement of the session (a query, a lazy load, a commit) does
    first: after a failed flush it raises [PendingRollbackError]. In this
    code a flush that can fail is followed, in the same transaction, only
    by the lazy load of [agent_run.conversation] and by the commit of the
    handler in [execute_agent_run]: these two go through [assert_active]. *)
Definition assert_active : M unit :=
  fun w => match flush_error w with
           | Some e => (Raise (PendingRollbackError e), w)
           | None => (Ok tt, w)
           end.

(** [db.close()]: what was not committed is dropped. The session that
    follows is a new one; what [flush_error] holds is not read after it,
    since the statements that read the field come after a commit. *)
Definition close : M unit :=
  modify (fun w =>
    {| session := committed w; committed := committed w;
       observed := observed w; files := files w; logs := logs w;
       slept := slept w; clock := clock w; uuids := uuids w; queue := queue w;
       flush_error := flush_error w |}).

(** [time.sleep(d)]. *)
Definition sleep (d : nat) : M unit :=
  modify (fun w =>
    {| session := session w; committed := committed w;
       observed := observed w; files := files w; logs := logs w;
       slept := slept w ++ [d]; clock := clock w + d;
       uuids := uuids w; queue := queue w;
       flush_error := flush_error w |}).

(** [uuid.uuid4()]. *)
Definition uuid4 : M nat :=
  fun w =>
    (Ok (uuids w),
     {| session := session w; committed := committed w;
        observed := observed w; files := files w; logs := logs w;
        slept := slept w; clock := clock w; uuids := S (uuids w);
        queue := queue w;
        flush_error := flush_error w |}).

(** [datetime.utcnow()], as far as the pipeline determines it: the clock
    moves with the sleeps, and two readings with no sleep between them
    give the same value, where the wall clock gives values that do not
    decrease. Rows stored between two sleeps so share their timestamp;
    [order_by_created_at] keeps such rows in the order in which they were
    stored, the order that later timestamps give them in the database. *)
Definition utcnow : M nat := gets clock.

(** Writing a file at [path]. *)
Definition write_file (path : string) : M unit :=
  modify (fun w =>
    {| session := session w; committed := committed w;
       observed := observed w; files := files w ++ [path]; logs := logs w;
       slept := slept w; clock := clock w; uuids := uuids w; queue := queue w;
       flush_error := flush_error w |}).

(** Pushing a job for [run_id] on the RQ queue. *)
Definition push_job (run_id : nat) : M unit :=
  modify (fun w =>
    {| session := session w; committed := committed w;
       observed := observed w; files := files w; logs := logs w;
       slept := slept w; clock := clock w; uuids := uuids w;
       queue := queue w ++ [run_id];
       flush_error := flush_error w |}).

(** ** Settings and external collaborators *)

(** One turn of the history handed to the generation capability. *)
Record Turn := { role : string; parts : list string }.

(** [chat.send_message]: the capability answers or raises. *)
Inductive GenOutcome :=
| Generated (text : string)
| GenRaised (e : string).

(** [client.post]: a response, or a transport-level exception. *)
Inductive HttpOutcome :=
| Response (status_code : nat) (text : string)
| TransportError (e : string).

Record Payload := {
  p_user_id : string;
  p_conversation_id : string;
  p_run_id : string;
  p_final_text : string;
  p_created_at : nat;
  p_has_visualization : bool
}.

(** Calls outside the pipeline's own code that can raise. These are the
    steps of the artifact side-channel and of posting a message. The
    generation capability and the HTTP request have their own outcomes
    below; the other database calls of the worker are taken to return.
    [persist_media], [persist_image] and [flush_user_message] are flushes:
    when one fails, the session is left with its transaction rolled back
    (see [flush]). *)
Inductive Step :=
| os_makedirs          (* visuals.py: os.makedirs *)
| plt_savefig          (* visuals.py: rendering the figure and plt.savefig *)
| persist_media        (* visuals.py: Media(...), db.add, db.flush *)
| persist_image        (* agent_runner.py: the Image message, db.add, db.flush *)
| flush_user_message   (* messages.py: db.add(message), db.flush *)
| commit_post          (* messages.py: db.add(agent_run), db.commit *)
| refresh_run          (* messages.py: db.refresh(agent_run) *)
| queue_enqueue.       (* enqueue.py: job_queue.enqueue *)

(** [GEMINI_API_KEY], [INTEGRATION_URL] and [MEDIA_DIR] are the settings of
    [app/core/config.py]. [generate_content history text] is the generation
    capability; [http_post attempt url payload] is the endpoint's answer to
    the request of the loop's iteration [attempt]; [faults s] is the
    exception text when step [s] raises. *)
Record Env := {
  GEMINI_API_KEY : option string;
  INTEGRATION_URL : option string;
  MEDIA_DIR : string;
  generate_content : list Turn -> string -> GenOutcome;
  http_post : nat -> string -> Payload -> HttpOutcome;
  faults : Step -> option string
}.

(** ** Queries *)

(** [db.query(AgentRun).filter(AgentRun.id == run_id).first()]: the row and
    its position, which stands for the identity of the ORM object. *)
Definition first_run (run_id : nat) (d : Db) : option (nat * AgentRun.t) :=
  list_find (fun r => AgentRun.id r = run_id) (agent_runs d).

(** [db.query(Message).filter(Message.id == message_id).first()]. *)
Definition first_message (message_id : nat) (d : Db) : option Message.t :=
  snd <$> list_find (fun m => Message.id m = message_id) (messages d).

(** [db.query(Conversation).filter(Conversation.id == cid).first()], also
    the [conversation] relationship of a run. *)
Definition first_conversation (cid : nat) (d : Db) : option Conversation.t :=
  snd <$> list_find (fun c => Conversation.id c = cid) (conversations d).

(** [db.query(Conversation).filter(and_(Conversation.id == cid,
       Conversation.user_id == uid)).first()]. *)
Definition first_owned_conversation (cid uid : nat) (d : Db)
    : option Conversation.t :=
  snd <$> list_find
    (fun c => Conversation.id c = cid /\ Conversation.user_id c = uid)
    (conversations d).

Fixpoint insert_by_created_at (m : Message.t) (l : list Message.t) : list Message.t :=
  match l with
  | [] => [m]
  | x :: l' =>
      if Message.created_at m <=? Message.created_at x
      then m :: x :: l'
      else x :: insert_by_created_at m l'
  end.

(** [.order_by(Message.created_at.asc())]: rows with the same timestamp
    stay in the order of the table. *)
Definition order_by_created_at (l : list Message.t) : list Message.t :=
  foldr insert_by_created_at [] l.

(** [db.query(Message).filter(Message.conversation_id == cid)
       .order_by(Message.created_at.asc()).all()]. *)
Definition conversation_messages (cid : nat) (d : Db) : list Message.t :=
  order_by_created_at (filter (fun m => Message.conversation_id m = cid) (messages d)).

(** The loop that builds [conversation_context] in [execute_agent_run]. *)
Fixpoint build_context (msgs : list Message.t) : list Turn :=
  match msgs with
  | [] => []
  | msg :: rest =>
      match Message.sender msg with
      | Sender.user =>
          {| role := "user"; parts := [get_text (Message.content_json msg)] |}
            :: build_context rest
      | Sender.assistant =>
          {| role := "model"; parts := [get_text (Message.content_json msg)] |}
            :: build_context rest
      | Sender.system => build_context rest
      end
  end.

(** ["plot:" in user_text.lower() or "chart:" in user_text.lower()]. *)
Definition wants_visual (user_text : string) : bool :=
  contains "plot:" (lower user_text) || contains "chart:" (lower user_text).

Section Pipeline.

Variable env : Env.

(** A call that raises when the environment says so. *)
Definition may_raise (s : Step) : M unit :=
  match faults env s with
  | Some e => raise e
  | None => ret tt
  end.

(** [db.flush()] at step [s]: when it fails it raises, and the session
    keeps the failure (see [flush_error]). *)
Definition flush (s : Step) : M unit :=
  match faults env s with
  | Some e => modify (fail_flush e) ;; raise e
  | None => ret tt
  end.

(** [db.add(Message(...)); db.flush()]. *)
Definition add_message (cid : nat) (who : Sender.t) (c : Content) : M nat :=
  mid <- uuid4 ;;
  now <- utcnow ;;
  modify (with_session (with_messages (fun l =>
    l ++ [ {| Message.id := mid; Message.conversation_id := cid;
              Message.sender := who; Message.content_json := c;
              Message.created_at := now |} ]))) ;;
  ret mid.

(** ** [app/services/visuals.py] *)

Definition generate_chart (user_text : string) (conversation_id : nat) : M string :=
  may_raise os_makedirs ;;
  media_id <- uuid4 ;;
  let filename := str media_id +:+ ".png" in
  let filepath := path_join (MEDIA_DIR env) filename in
  log INFO "Generating chart" ;;
  try_except
    (may_raise plt_savefig ;;
     write_file filepath ;;
     log INFO "Chart generated successfully" ;;
     flush persist_media ;;
     now <- utcnow ;;
     modify (with_session (with_media (fun l =>
       l ++ [ {| Media.id := media_id; Media.conversation_id := conversation_id;
                 Media.message_id := None; Media.media_type := "image/png";
                 Media.storage_path := filepath; Media.created_at := now |} ]))) ;;
     ret (str media_id))
    (fun e =>
       log ERROR "Failed to generate chart" ;;
       raise e).

(** ** [app/services/integration.py] *)

Definition max_attempts : nat := 3.
Definition backoff_delays : list nat := [1; 2; 4].

(** [status_code in [200, 201, 202]]. *)
Definition is_success (status_code : nat) : bool :=
  (status_code =? 200) || (status_code =? 201) || (status_code =? 202).

(** Assignment to an attribute of the delivery object at position [h]. *)
Definition update_delivery (h : nat)
    (f : nat -> IntegrationDelivery.t -> IntegrationDelivery.t) : M unit :=
  now <- utcnow ;;
  modify (with_session (with_deliveries (alter (f now) h))).

(** One delivery attempt: the [try] / [except] inside the loop; [true]
    when the function returns from inside it. *)
Definition delivery_attempt (h : nat) (url : string) (payload : Payload)
    (attempt : nat) : M bool :=
  try_except
    (log INFO ("Integration delivery attempt " +:+ str (attempt + 1)
               +:+ "/" +:+ str max_attempts) ;;
     match http_post env attempt url payload with
     | TransportError e => raise e
     | Response status_code text =>
         if is_success status_code then
           update_delivery h
             (IntegrationDelivery.set_status DeliveryStatus.succeeded) ;;
           commit ;;
           log INFO "Integration delivery succeeded" ;;
           ret true
         else
           let error_msg :=
             "HTTP " +:+ str status_code +:+ ": " +:+ slice_to 200 text in
           update_delivery h (IntegrationDelivery.set_last_error error_msg) ;;
           commit ;;
           log WARNING "Integration delivery failed with bad status code" ;;
           ret false
     end)
    (fun e =>
       let error_msg := e in
       update_delivery h (IntegrationDelivery.set_last_error error_msg) ;;
       commit ;;
       log ERROR "Integration delivery failed with exception" ;;
       ret false).

(** [for attempt in range(max_attempts)], over the attempts still to run;
    [true] when the loop was left by [return]. *)
Fixpoint delivery_loop (h : nat) (url : string) (payload : Payload)
    (attempts : list nat) : M bool :=
  match attempts with
  | [] => ret false
  | attempt :: rest =>
      update_delivery h (IntegrationDelivery.set_attempts (attempt + 1)) ;;
      commit ;;
      returned <- delivery_attempt h url payload attempt ;;
      if returned then ret true
      else
        (if attempt <? max_attempts - 1 then
           match backoff_delays !! attempt with
           | Some delay =>
               log INFO ("Waiting " +:+ str delay +:+ "s before retry") ;;
               sleep delay
           | None => raise "list index out of range"
           end
         else ret tt) ;;
        delivery_loop h url payload rest
  end.

Definition send_to_external_system (run_id : nat) (payload : Payload) : M unit :=
  if negb (is_set (INTEGRATION_URL env)) then
    log INFO "Integration disabled (INTEGRATION_URL not set)"
  else
    let url := default "" (INTEGRATION_URL env) in
    did <- uuid4 ;;
    now <- utcnow ;;
    h <- gets (fun w => length (integration_deliveries (session w))) ;;
    modify (with_session (with_deliveries (fun l =>
      l ++ [ {| IntegrationDelivery.id := did;
                IntegrationDelivery.run_id := run_id;
                IntegrationDelivery.status := DeliveryStatus.pending;
                IntegrationDelivery.attempts := 0;
                IntegrationDelivery.last_error := None;
                IntegrationDelivery.created_at := now;
                IntegrationDelivery.updated_at := now |} ]))) ;;
    commit ;;
    log INFO "Starting integration delivery" ;;
    returned <- delivery_loop h url payload (seq 0 max_attempts) ;;
    if returned then ret tt
    else
      update_delivery h (IntegrationDelivery.set_status DeliveryStatus.failed) ;;
      commit ;;
      log ERROR "Integration delivery failed after all attempts".

(** ** [app/services/agent_runner.py] *)

Definition _run_gemini_agent (conversation_context : list Turn)
    (user_text : string) : M string :=
  if negb (is_set (GEMINI_API_KEY env)) then
    log WARNING "Gemini API key not set, using echo response" ;;
    ret ("Echo: " +:+ user_text)
  else
    try_except
      (let history :=
         if 1 <? length conversation_context
         then removelast conversation_context else [] in
       match generate_content env history user_text with
       | Generated text => ret text
       | GenRaised e => raise e
       end)
      (fun e =>
         log ERROR ("Gemini API call failed: " +:+ e) ;;
         ret ("I received your message: " +:+ user_text)).

(** Assignment to attributes of the run object at position [h]. *)
Definition update_run (h : nat) (f : nat -> AgentRun.t -> AgentRun.t) : M unit :=
  now <- utcnow ;;
  modify (with_session (with_agent_runs (alter (f now) h))).

(** The block under [if generate_visual:]. The source has one [try]; it is
    split here where [media_id] is assigned, because the handler leaves
    [media_id] as it was when the exception was raised. *)
Definition visualization (agent_run : AgentRun.t) (user_text : string)
    : M (option string) :=
  r <- attempt (generate_chart user_text (AgentRun.conversation_id agent_run)) ;;
  match r with
  | Raise e =>
      log ERROR "Failed to generate visualization" ;;
      ret None
  | Ok media_id =>
      try_except
        (if truthy media_id then
           flush persist_image ;;
           add_message (AgentRun.conversation_id agent_run) Sender.assistant
             (Image ("/v1/media/" +:+ media_id) "Generated visualization") ;;
           log INFO "Visualization generated and message created"
         else ret tt)
        (fun e => log ERROR "Failed to generate visualization") ;;
      ret (Some media_id)
  end.

Definition execute_agent_run (run_id : nat) : M unit :=
  found <- gets (fun w => first_run run_id (session w)) ;;
  match found with
  | None => log ERROR "Agent run not found"
  | Some (h, agent_run) =>
      update_run h AgentRun.set_running ;;
      commit ;;
      log INFO "Agent run started" ;;
      try_except
        (messages <- gets (fun w =>
           conversation_messages (AgentRun.conversation_id agent_run) (session w)) ;;
         trigger_message <- gets (fun w =>
           first_message (AgentRun.trigger_message_id agent_run) (session w)) ;;
         user_text <-
           match trigger_message with
           | Some m => ret (get_text (Message.content_json m))
           | None => raise "'NoneType' object has no attribute 'content_json'"
           end ;;
         let generate_visual := wants_visual user_text in
         let conversation_context := build_context messages in
         response_text <- _run_gemini_agent conversation_context user_text ;;
         add_message (AgentRun.conversation_id agent_run) Sender.assistant
           (Text response_text []) ;;
         log INFO "Assistant message created" ;;
         media_id <-
           (if generate_visual then visualization agent_run user_text
            else ret None) ;;
         assert_active ;;
         conversation <- gets (fun w =>
           first_conversation (AgentRun.conversation_id agent_run) (session w)) ;;
         user_id <-
           match conversation with
           | Some c => ret (Conversation.user_id c)
           | None => raise "'NoneType' object has no attribute 'user_id'"
           end ;;
         now <- utcnow ;;
         let integration_payload :=
           {| p_user_id := str user_id;
              p_conversation_id := str (AgentRun.conversation_id agent_run);
              p_run_id := str run_id;
              p_final_text := response_text;
              p_created_at := now;
              p_has_visualization :=
                match media_id with Some _ => true | None => false end |} in
         send_to_external_system run_id integration_payload ;;
         update_run h AgentRun.set_succeeded ;;
         commit ;;
         log INFO "Agent run completed successfully")
        (fun e =>
           update_run h (fun now => AgentRun.set_failed now e) ;;
           assert_active ;;
           commit ;;
           log ERROR "Agent run failed" ;;
           raise e)
  end.

(** ** [app/worker/jobs.py] *)

Definition run_agent_job (run_id : nat) : M unit :=
  log INFO "Agent job started" ;;
  try_finally (execute_agent_run run_id) close ;;
  log INFO "Agent job completed".

(** ** [app/services/enqueue.py] *)

Definition enqueue_agent_run (run_id : nat) : M nat :=
  may_raise queue_enqueue ;;
  push_job run_id ;;
  job_id <- gets (fun w => length (queue w)) ;;
  log INFO "Agent run job enqueued" ;;
  ret job_id.

(** ** [app/api/routes/messages.py] *)

Record PostMessageResponse := {
  r_message_id : nat;
  r_run_id : nat;
  r_status : RunStatus.t
}.

(** The handler body; [current_user] is the id of the authenticated user. *)
Definition post_message_body (conversation_id : nat) (text : string)
    (metadata : option (list (string * string))) (current_user : nat)
    : M PostMessageResponse :=
  conversation <- gets (fun w =>
    first_owned_conversation conversation_id current_user (session w)) ;;
  match conversation with
  | None => raise "404 Conversation not found"
  | Some _ =>
      flush flush_user_message ;;
      message_id <- add_message conversation_id Sender.user
                      (Text text (default [] metadata)) ;;
      run_id <- uuid4 ;;
      now <- utcnow ;;
      modify (with_session (with_agent_runs (fun l =>
        l ++ [ {| AgentRun.id := run_id;
                  AgentRun.conversation_id := conversation_id;
                  AgentRun.trigger_message_id := message_id;
                  AgentRun.status := RunStatus.queued;
                  AgentRun.started_at := None;
                  AgentRun.finished_at := None;
                  AgentRun.last_error := None;
                  AgentRun.created_at := now |} ]))) ;;
      may_raise commit_post ;;
      commit ;;
      may_raise refresh_run ;;
      log INFO "User message posted, agent run queued" ;;
      enqueue_agent_run run_id ;;
      ret {| r_message_id := message_id; r_run_id := run_id;
             r_status := RunStatus.queued |}
  end.

(** [post_message] with its [Depends(get_db)] session, which [get_db]
    closes when the request ends. *)
Definition post_message (conversation_id : nat) (text : string)
    (metadata : option (list (string * string))) (current_user : nat)
    : M PostMessageResponse :=
  try_finally (post_message_body conversation_id text metadata current_user) close.

End Pipeline.

(** ** Example data *)

Module Example.

(** One conversation of user 7, with one user message asking for a plot
    and the queued run it triggered. *)
Definition db : Db :=
  {| conversations := [ {| Conversation.id := 1; Conversation.user_id := 7 |} ];
     messages :=
       [ {| Message.id := 10; Message.conversation_id := 1;
            Message.sender := Sender.user;
            Message.content_json := Text "Plot: sales" [];
            Message.created_at := 0 |} ];
     agent_runs :=
       [ {| AgentRun.id := 20; AgentRun.conversation_id := 1;
            AgentRun.trigger_message_id := 10;
            AgentRun.status := RunStatus.queued;
            AgentRun.started_at := None; AgentRun.finished_at := None;
            AgentRun.last_error := None; AgentRun.created_at := 0 |} ];
     media := [];
     integration_deliveries := [] |}.

(** The queued run of [db] and its trigger message. *)
Definition run : AgentRun.t :=
  {| AgentRun.id := 20; AgentRun.conversation_id := 1;
     AgentRun.trigger_message_id := 10;
     AgentRun.status := RunStatus.queued;
     AgentRun.started_at := None; AgentRun.finished_at := None;
     AgentRun.last_error := None; AgentRun.created_at := 0 |}.

Definition trigger : Message.t :=
  {| Message.id := 10; Message.conversation_id := 1;
     Message.sender := Sender.user;
     Message.content_json := Text "Plot: sales" [];
     Message.created_at := 0 |}.

Definition conversation : Conversation.t :=
  {| Conversation.id := 1; Conversation.user_id := 7 |}.

Definition world_of (d : Db) : World :=
  {| session := d; committed := d; observed := []; files := [];
     logs := []; slept := []; clock := 100; uuids := 1000; queue := [];
     flush_error := None |}.

Definition world : World := world_of db.

Definition payload : Payload :=
  {| p_user_id := "7"; p_conversation_id := "1"; p_run_id := "20";
     p_final_text := "Echo: Plot: sales"; p_created_at := 100;
     p_has_visualization := true |}.

(** Nothing configured, nothing raises. *)
Definition env : Env :=
  {| GEMINI_API_KEY := None;
     INTEGRATION_URL := None;
     MEDIA_DIR := "./data/media";
     generate_content := fun _ _ => Generated "Here you go";
     http_post := fun _ _ _ => Response 200 "ok";
     faults := fun _ => None |}.

(** An endpoint is configured and answers every request with [r]. *)
Definition env_endpoint (r : HttpOutcome) : Env :=
  {| GEMINI_API_KEY := None;
     INTEGRATION_URL := Some "http://integration.example/hook";
     MEDIA_DIR := "./data/media";
     generate_content := fun _ _ => Generated "Here you go";
     http_post := fun _ _ _ => r;
     faults := fun _ => None |}.

(** A credential is set and the capability raises. *)
Definition env_capability_raises : Env :=
  {| GEMINI_API_KEY := Some "key";
     INTEGRATION_URL := None;
     MEDIA_DIR := "./data/media";
     generate_content := fun _ _ => GenRaised "quota exceeded";
     http_post := fun _ _ _ => Response 200 "ok";
     faults := fun _ => None |}.

(** Step [s] raises, everything else works. *)
Definition env_fault (s : Step) : Env :=
  {| GEMINI_API_KEY := None;
     INTEGRATION_URL := None;
     MEDIA_DIR := "./data/media";
     generate_content := fun _ _ => Generated "Here you go";
     http_post := fun _ _ _ => Response 200 "ok";
     faults := fun s' =>
       match s, s' with
       | os_makedirs, os_makedirs | plt_savefig, plt_savefig
       | persist_media, persist_media | persist_image, persist_image
       | flush_user_message, flush_user_message
       | commit_post, commit_post
       | refresh_run, refresh_run
       | queue_enqueue, queue_enqueue => Some "step failed"
       | _, _ => None
       end |}.

Fixpoint repeat_char (c : ascii) (n : nat) : string :=
  match n with
  | 0 => ""
  | S n' => String c (repeat_char c n')
  end.

(** An exception text of 201 characters. *)
Definition long_error : string := repeat_char "a" 200 +:+ "b".

End Example.

(** The world a computation leaves, and its outcome. *)
Definition after {A} (m : M A) (w : World) : World := snd (m w).
Definition outcome {A} (m : M A) (w : World) : Outcome A := fst (m w).

(** The last row of the deliveries table that readers see. *)
Definition last_delivery (w : World) : option IntegrationDelivery.t :=
  last (integration_deliveries (committed w)).

(** What [send_to_external_system] leaves alone: every table but the
    deliveries, the files and the queue; each state it commits shows the
    runs as they were. *)
Definition delivery_frame (w w' : World) : Prop :=
  conversations (session w') = conversations (session w)
  /\ messages (session w') = messages (session w)
  /\ agent_runs (session w') = agent_runs (session w)
  /\ media (session w') = media (session w)
  /\ files w' = files w
  /\ queue w' = queue w
  /\ exists new,
       observed w' = observed w ++ new
       /\ Forall (fun d => agent_runs d = agent_runs (session w)) new.

(** A world with more log entries. *)
Definition add_logs (entries : list (Level * string)) (w : World) : World :=
  {| session := session w; committed := committed w;
     observed := observed w; files := files w;
     logs := logs w ++ entries;
     slept := slept w; clock := clock w; uuids := uuids w; queue := queue w;
     flush_error := flush_error w |}.

Definition step_ok (env : Env) (s : Step) : bool :=
  match faults env s with None => true | Some _ => false end.

(** No step of [generate_chart] raises. *)
Definition generate_chart_ok (env : Env) : bool :=
  step_ok env os_makedirs && step_ok env plt_savefig && step_ok env persist_media.

(** Artifact generation succeeds: the chart and its Image message. *)
Definition artifact_ok (env : Env) : bool :=
  generate_chart_ok env && step_ok env persist_image.

(** The exception of the flush that fails when a chart is made, if one
    does: the flush of the Media row, which [generate_chart] reaches once
    the directory and the figure are there, or else the flush of the
    Image message. *)
Definition flush_failure (env : Env) : option string :=
  if step_ok env os_makedirs && step_ok env plt_savefig then
    match faults env persist_media with
    | Some e => Some e
    | None => faults env persist_image
    end
  else None.

(** The same for the run [r] in the state [d]: the run makes a chart when
    the text of its trigger message asks for one. *)
Definition lost_session (env : Env) (r : AgentRun.t) (d : Db) : option string :=
  match first_message (AgentRun.trigger_message_id r) d with
  | Some m =>
      if wants_visual (get_text (Message.content_json m))
      then flush_failure env else None
  | None => None
  end.

(** The foreign key of [agent_runs.trigger_message_id] in
    [app/db/models.py] ([ForeignKey("messages.id", ondelete="CASCADE")],
    [nullable=False]): the trigger message of every stored run is
    stored; deleting the message deletes the run. *)
Definition foreign_keys (d : Db) : Prop :=
  Forall (fun r => is_Some (first_message (AgentRun.trigger_message_id r) d))
    (agent_runs d).

(** The history handed to [model.start_chat]. *)
Definition chat_history (conversation_context : list Turn) : list Turn :=
  if 1 <? length conversation_context
  then removelast conversation_context else [].

(** The status of run [run_id] in a state of the database. *)
Definition status_of (run_id : nat) (d : Db) : option RunStatus.t :=
  (fun hr => AgentRun.status (snd hr)) <$> first_run run_id d.

(** The statuses of run [run_id] in a list of states, oldest first. *)
Definition statuses (run_id : nat) (l : list Db) : list RunStatus.t :=
  omap (status_of run_id) l.

(** A sequence of statuses without its immediate repetitions. *)
Fixpoint compress (l : list RunStatus.t) : list RunStatus.t :=
  match l with
  | [] => []
  | a :: l' =>
      match l' with
      | b :: _ => if RunStatus.eqb a b then compress l' else a :: compress l'
      | [] => [a]
      end
  end.

Definition is_text (m : Message.t) : bool :=
  match Message.content_json m with Text _ _ => true | Image _ _ => false end.

(** The same environment with another integration endpoint. *)
Definition with_integration (url : option string)
    (post : nat -> string -> Payload -> HttpOutcome) (env : Env) : Env :=
  {| GEMINI_API_KEY := GEMINI_API_KEY env;
     INTEGRATION_URL := url;
     MEDIA_DIR := MEDIA_DIR env;
     generate_content := generate_content env;
     http_post := post;
     faults := faults env |}.

(** ** [app/api/routes/messages.py]: polling *)

(** The handler body of [get_messages]. The two cursor filters are strict:
    [Message.created_at > ...]. *)
Definition get_messages_body (conversation_id : nat) (after_id : option nat)
    (since : option nat) (limit : nat) (current_user : nat)
    : M (list Message.t) :=
  conversation <- gets (fun w =>
    first_owned_conversation conversation_id current_user (session w)) ;;
  match conversation with
  | None => raise "404 Conversation not found"
  | Some _ =>
      query <- gets (fun w =>
        filter (fun m => Message.conversation_id m = conversation_id)
          (messages (session w))) ;;
      query <-
        match after_id with
        | Some after_id =>
            after_message <- gets (fun w => first_message after_id (session w)) ;;
            match after_message with
            | Some after_message =>
                ret (filter (fun m => Message.created_at after_message
                                      < Message.created_at m) query)
            | None => ret query
            end
        | None => ret query
        end ;;
      let query :=
        match since with
        | Some since => filter (fun m => since < Message.created_at m) query
        | None => query
        end in
      let messages := take limit (order_by_created_at query) in
      log INFO ("Retrieved " +:+ str (length messages) +:+ " messages") ;;
      ret messages
  end.

(** [get_messages] with the declared bounds of its [limit] parameter,
    [Query(100, ge=1, le=500)], and its [Depends(get_db)] session. *)
Definition get_messages (conversation_id : nat) (after_id : option nat)
    (since : option nat) (limit : option nat) (current_user : nat)
    : M (list Message.t) :=
  let limit := default 100 limit in
  if (1 <=? limit) && (limit <=? 500) then
    try_finally
      (get_messages_body conversation_id after_id since limit current_user)
      close
  else raise "422 Unprocessable Entity".

(** ** [app/api/routes/runs.py] *)

Definition get_run_status_body (run_id : nat) (current_user : nat)
    : M AgentRun.t :=
  agent_run <- gets (fun w => first_run run_id (session w)) ;;
  match agent_run with
  | None => raise "404 Run not found"
  | Some (_, agent_run) =>
      conversation <- gets (fun w =>
        first_conversation (AgentRun.conversation_id agent_run) (session w)) ;;
      match conversation with
      | None => raise "'NoneType' object has no attribute 'user_id'"
      | Some c =>
          if negb (Conversation.user_id c =? current_user) then
            raise "403 Not authorized to view this run"
          else
            log INFO "Run status retrieved" ;;
            ret agent_run
      end
  end.

Definition get_run_status (run_id : nat) (current_user : nat) : M AgentRun.t :=
  try_finally (get_run_status_body run_id current_user) close.

(** ** [app/api/routes/media.py] *)

(** [db.query(Media).filter(Media.id == media_id).first()]. *)
Definition first_media (media_id : nat) (d : Db) : option Media.t :=
  snd <$> list_find (fun x => Media.id x = media_id) (media d).

(** [os.path.exists(path)]. *)
Definition path_exists (path : string) (w : World) : bool :=
  bool_decide (path ∈ files w).

Record FileResponse := {
  f_path : string;
  f_media_type : string;
  f_filename : string
}.

Definition get_media_body (media_id : nat) (current_user : nat)
    : M FileResponse :=
  media <- gets (fun w => first_media media_id (session w)) ;;
  match media with
  | None => raise "404 Media not found"
  | Some media =>
      conversation <- gets (fun w =>
        first_conversation (Media.conversation_id media) (session w)) ;;
      match conversation with
      | None => raise "'NoneType' object has no attribute 'user_id'"
      | Some c =>
          if negb (Conversation.user_id c =? current_user) then
            raise "403 Not authorized to access this media"
          else
            on_disk <- gets (path_exists (Media.storage_path media)) ;;
            if negb on_disk then
              log ERROR "Media file not found on disk" ;;
              raise "404 Media file not found"
            else
              log INFO "Media file served" ;;
              ret {| f_path := Media.storage_path media;
                     f_media_type := Media.media_type media;
                     f_filename := str media_id +:+ ".png" |}
      end
  end.

Definition get_media (media_id : nat) (current_user : nat) : M FileResponse :=
  try_finally (get_media_body media_id current_user) close.

(** ** Vocabulary of the further properties *)

(** Whether the endpoint's answer to attempt [k] counts as delivered. *)
Definition attempt_succeeds (env : Env) (payload : Payload) (k : nat) : bool :=
  match http_post env k (default "" (INTEGRATION_URL env)) payload with
  | Response status_code _ => is_success status_code
  | TransportError _ => false
  end.

(** The text [send_to_external_system] records for a failed attempt [k]. *)
Definition attempt_error (env : Env) (payload : Payload) (k : nat) : string :=
  match http_post env k (default "" (INTEGRATION_URL env)) payload with
  | Response status_code text =>
      "HTTP " +:+ str status_code +:+ ": " +:+ slice_to 200 text
  | TransportError e => e
  end.

(** The turn that [execute_agent_run] makes of a user or assistant message. *)
Definition turn_of (msg : Message.t) : Turn :=
  {| role := match Message.sender msg with
             | Sender.user => "user"
             | _ => "model"
             end;
     parts := [get_text (Message.content_json msg)] |}.

Definition is_system (msg : Message.t) : bool :=
  match Message.sender msg with Sender.system => true | _ => false end.

(** No row of the tables has an identifier that [uuid4] can still give. *)
Definition uuids_fresh (w : World) : Prop :=
  Forall (fun x => Message.id x < uuids w) (messages (session w))
  /\ Forall (fun x => AgentRun.id x < uuids w) (agent_runs (session w))
  /\ Forall (fun x => Media.id x < uuids w) (media (session w)).

(** ** More example data *)

Module Cases.

(** An endpoint that answers 503 to the first request and 202 afterwards. *)
Definition env_second_attempt : Env :=
  {| GEMINI_API_KEY := None;
     INTEGRATION_URL := Some "http://integration.example/hook";
     MEDIA_DIR := "./data/media";
     generate_content := fun _ _ => Generated "Here you go";
     http_post := fun attempt _ _ =>
       if attempt =? 0 then Response 503 "busy" else Response 202 "accepted";
     faults := fun _ => None |}.

(** An endpoint that answers 204, then refuses the connection, then
    answers 500. *)
Definition env_never_accepts : Env :=
  {| GEMINI_API_KEY := None;
     INTEGRATION_URL := Some "http://integration.example/hook";
     MEDIA_DIR := "./data/media";
     generate_content := fun _ _ => Generated "Here you go";
     http_post := fun attempt _ _ =>
       match attempt with
       | 0 => Response 204 ""
       | 1 => TransportError "connection refused"
       | _ => Response 500 "down"
       end;
     faults := fun _ => None |}.

(** The endpoint answers 200; the flush of the Image message fails. *)
Definition env_image_flush_fails : Env :=
  {| GEMINI_API_KEY := None;
     INTEGRATION_URL := Some "http://integration.example/hook";
     MEDIA_DIR := "./data/media";
     generate_content := fun _ _ => Generated "Here you go";
     http_post := fun _ _ _ => Response 200 "ok";
     faults := fun s =>
       match s with
       | persist_image => Some "could not serialize"
       | _ => None
       end |}.

End Cases.

(** Ascending order of creation time. *)
Definition created_le (a b : Message.t) : Prop :=
  Message.created_at a <= Message.created_at b.

(** ** The stages of [execute_agent_run]

    Names for the consecutive parts of the function's body, to state what
    each part hands to the next. *)

(** Lines 31-40: the run is marked running. *)
Definition begin_run (h : nat) : M unit :=
  update_run h AgentRun.set_running ;;
  commit ;;
  log INFO "Agent run started".

(** Lines 75-91: the reply is stored. *)
Definition store_reply (cid : nat) (response_text : string) : M unit :=
  add_message cid Sender.assistant (Text response_text []) ;;
  log INFO "Assistant message created".

(** Lines 130-137: the payload of the notification. *)
Definition payload_of (c : Conversation.t) (agent_run : AgentRun.t)
    (run_id : nat) (response_text : string) (now : nat)
    (media_id : option string) : Payload :=
  {| p_user_id := str (Conversation.user_id c);
     p_conversation_id := str (AgentRun.conversation_id agent_run);
     p_run_id := str run_id;
     p_final_text := response_text;
     p_created_at := now;
     p_has_visualization :=
       match media_id with Some _ => true | None => false end |}.

(** Lines 141-150: the run is marked succeeded. *)
Definition finish_run (h : nat) : M unit :=
  update_run h AgentRun.set_succeeded ;;
  commit ;;
  log INFO "Agent run completed successfully".

(** Lines 152-164: the handler of the outer [try]. *)
Definition fail_run (h : nat) (e : string) : M unit :=
  update_run h (fun now => AgentRun.set_failed now e) ;;
  assert_active ;;
  commit ;;
  log ERROR "Agent run failed" ;;
  raise e.

(** The file that [generate_chart] writes for [media_id]. *)
Definition chart_path (env : Env) (media_id : nat) : string :=
  path_join (MEDIA_DIR env) (str media_id +:+ ".png").

(** The Media row that [generate_chart] stores. *)
Definition chart_row (env : Env) (conversation_id media_id now : nat) : Media.t :=
  {| Media.id := media_id; Media.conversation_id := conversation_id;
     Media.message_id := None; Media.media_type := "image/png";
     Media.storage_path := chart_path env media_id;
     Media.created_at := now |}.

(** The assistant Text message that [execute_agent_run] stores. *)
Definition reply_row (cid : nat) (response_text : string) (id now : nat)
    : Message.t :=
  {| Message.id := id; Message.conversation_id := cid;
     Message.sender := Sender.assistant;
     Message.content_json := Text response_text [];
     Message.created_at := now |}.

(** The assistant Image message that [execute_agent_run] stores for the
    media row [media_id]. *)
Definition image_row (cid media_id id now : nat) : Message.t :=
  {| Message.id := id; Message.conversation_id := cid;
     Message.sender := Sender.assistant;
     Message.content_json :=
       Image ("/v1/media/" +:+ str media_id) "Generated visualization";
     Message.created_at := now |}.



(** ** Proof automation *)

(** Closes a frame goal between a world and an explicit successor. *)
Ltac frame_explicit :=
  cbn; repeat split;
  first
    [ exists []; split; [ by rewrite app_nil_r | constructor ]
    | eexists; split;
      [ rewrite <- ?app_assoc; reflexivity
      | cbn; repeat constructor ] ].

(** Runs the primitives of the monad on an explicit world and stops at
    the calls that have their own lemma. *)
Ltac run_prims :=
  lazy beta iota zeta delta
    [bind gets ret raise modify utcnow uuid4 log commit update_run
     add_message try_except add_logs
     with_session with_messages with_agent_runs with_media with_deliveries
     first_message first_conversation conversation_messages
     session committed observed files logs slept clock uuids queue
     flush_error assert_active
     conversations messages agent_runs media integration_deliveries].

(** * Properties *)

(** ** Integration delivery *)

Lemma alter_last {A} (f : A -> A) (l : list A) (x : A) :
  alter f (length l) (l ++ [x]) = l ++ [f x].
Proof.
  rewrite <- (Nat.add_0_r (length l)). by rewrite alter_app_r.
Qed.

Lemma delivery_frame_refl w : delivery_frame w w.
Proof.
  repeat split. exists []. by rewrite app_nil_r.
Qed.

Lemma delivery_frame_trans w1 w2 w3 :
  delivery_frame w1 w2 -> delivery_frame w2 w3 -> delivery_frame w1 w3.
Proof.
  intros (Hc & Hm & Hr & Hme & Hf & Hq & n1 & Ho1 & Hn1)
         (Hc' & Hm' & Hr' & Hme' & Hf' & Hq' & n2 & Ho2 & Hn2).
  repeat split; try congruence.
  exists (n1 ++ n2). split.
  - by rewrite Ho2, Ho1, app_assoc.
  - apply Forall_app. split; [done|].
    eapply Forall_impl; [exact Hn2|]. cbn. intros d Hd. congruence.
Qed.

Lemma update_delivery_frame h f w :
  exists w', update_delivery h f w = (Ok tt, w') /\ delivery_frame w w'.
Proof.
  eexists. split; [reflexivity|]. cbn.
  repeat split. exists []. by rewrite app_nil_r.
Qed.

Lemma log_frame l msg w :
  exists w', log l msg w = (Ok tt, w') /\ delivery_frame w w'.
Proof.
  eexists. split; [reflexivity|]. cbn.
  repeat split. exists []. by rewrite app_nil_r.
Qed.

Lemma commit_frame w :
  exists w', commit w = (Ok tt, w') /\ delivery_frame w w'.
Proof.
  eexists. split; [reflexivity|]. cbn.
  repeat split. exists [session w]. split; [done|]. by constructor.
Qed.

(** Sequencing two steps that return and keep the frame. *)
Lemma bind_ok_frame {A B} (m : M A) (k : A -> M B) w :
  (exists a w', m w = (Ok a, w') /\ delivery_frame w w') ->
  (forall a w', exists b w'', k a w' = (Ok b, w'') /\ delivery_frame w' w'') ->
  exists b w', bind m k w = (Ok b, w') /\ delivery_frame w w'.
Proof.
  intros (a & w' & Hm & Hf) Hk. unfold bind. rewrite Hm.
  destruct (Hk a w') as (b & w'' & Hk' & Hf').
  exists b, w''. split; [done|]. eauto using delivery_frame_trans.
Qed.

Lemma delivery_attempt_frame env h url payload attempt w :
  exists b w',
    delivery_attempt env h url payload attempt w = (Ok b, w')
    /\ delivery_frame w w'.
Proof.
  unfold delivery_attempt, try_except, bind. cbn.
  destruct (http_post env attempt url payload) as [code text|e]; cbn.
  - destruct (is_success code); cbn;
      eexists _, _; (split; [reflexivity|]); frame_explicit.
  - eexists _, _. split; [reflexivity|]. frame_explicit.
Qed.

Lemma delivery_loop_frame env h url payload attempts w :
  Forall (fun a => a < max_attempts) attempts ->
  exists b w',
    delivery_loop env h url payload attempts w = (Ok b, w')
    /\ delivery_frame w w'.
Proof.
  intros Hall. revert w.
  induction Hall as [|attempt rest Hlt _ IH]; intros w.
  - exists false, w. split; [reflexivity|]. apply delivery_frame_refl.
  - cbn [delivery_loop].
    apply bind_ok_frame; [destruct (update_delivery_frame h
      (IntegrationDelivery.set_attempts (attempt + 1)) w) as (?&?&?); eauto|].
    intros _ w1.
    apply bind_ok_frame; [destruct (commit_frame w1) as (?&?&?); eauto|].
    intros _ w2.
    apply bind_ok_frame; [apply delivery_attempt_frame|].
    intros returned w3. destruct returned.
    + exists true, w3. split; [reflexivity|]. apply delivery_frame_refl.
    + apply bind_ok_frame; [|intros _ w4; apply IH].
      unfold max_attempts in *.
      destruct (attempt <? 3 - 1) eqn:Hlast.
      * destruct attempt as [|[|[|?]]]; cbn in Hlast; try discriminate; cbn.
        -- eexists _, _. split; [reflexivity|]. frame_explicit.
        -- eexists _, _. split; [reflexivity|]. frame_explicit.
      * exists tt, w3. split; [reflexivity|]. apply delivery_frame_refl.
Qed.

Lemma send_to_external_system_frame env run_id payload w :
  exists w',
    send_to_external_system env run_id payload w = (Ok tt, w')
    /\ delivery_frame w w'.
Proof.
  unfold send_to_external_system.
  destruct (is_set (INTEGRATION_URL env)); cbn [negb].
  - unfold bind at 1 2 3 4 5 6. cbn -[delivery_loop]. unfold bind at 1.
    match goal with
    | |- context [delivery_loop env ?h ?u ?p ?a ?w0] =>
        destruct (delivery_loop_frame env h u p a w0) as (b & w1 & Hl & Hf1);
        [ repeat constructor | ]
    end.
    rewrite Hl.
    assert (Hf0 : delivery_frame w w1).
    { eapply delivery_frame_trans; [|exact Hf1]. frame_explicit. }
    destruct b.
    + exists w1. done.
    + eexists. split; [reflexivity|].
      eapply delivery_frame_trans; [exact Hf0|]. frame_explicit.
  - destruct (log_frame INFO "Integration disabled (INTEGRATION_URL not set)" w)
      as (w' & -> & Hf). eauto.
Qed.

(** ** Claims about the delivery *)

Lemma length_slice_to n s : String.length (slice_to n s) <= n.
Proof.
  unfold slice_to. revert s.
  induction n as [|n IH]; intros [|c s']; cbn; try lia.
  specialize (IH s'). lia.
Qed.

(** C7. With an endpoint configured, when the first attempt is answered
    with status 200, 201 or 202, [send_to_external_system] returns with one
    new Delivery row whose status is succeeded and whose attempts counter
    is 1, and nothing was slept. *)
Theorem C7_first_attempt_succeeds env run_id payload w code body :
  is_set (INTEGRATION_URL env) = true ->
  code = 200 \/ code = 201 \/ code = 202 ->
  http_post env 0 (default "" (INTEGRATION_URL env)) payload = Response code body ->
  exists d w',
    send_to_external_system env run_id payload w = (Ok tt, w')
    /\ integration_deliveries (committed w')
       = integration_deliveries (session w) ++ [d]
    /\ IntegrationDelivery.run_id d = run_id
    /\ IntegrationDelivery.status d = DeliveryStatus.succeeded
    /\ IntegrationDelivery.attempts d = 1
    /\ slept w' = slept w
    /\ clock w' = clock w.
Proof.
  intros Hset Hcode Hpost.
  assert (Hok : is_success code = true)
    by (destruct Hcode as [->|[->| ->]]; reflexivity).
  unfold send_to_external_system. rewrite Hset. cbn.
  unfold delivery_attempt. rewrite Hpost, Hok. cbn.
  eexists _, _. split; [reflexivity|]. cbn.
  rewrite !alter_last. cbn. done.
Qed.

Lemma C7_witness :
  exists d w',
    send_to_external_system (Example.env_endpoint (Response 200 "ok")) 20
      Example.payload Example.world = (Ok tt, w')
    /\ integration_deliveries (committed w')
       = integration_deliveries (session Example.world) ++ [d]
    /\ IntegrationDelivery.run_id d = 20
    /\ IntegrationDelivery.status d = DeliveryStatus.succeeded
    /\ IntegrationDelivery.attempts d = 1
    /\ slept w' = slept Example.world
    /\ clock w' = clock Example.world.
Proof.
  apply (C7_first_attempt_succeeds
           (Example.env_endpoint (Response 200 "ok")) 20 Example.payload
           Example.world 200 "ok").
  - reflexivity.
  - left. reflexivity.
  - reflexivity.
Defined.

(** C2, as the code has it. With an endpoint configured, when every attempt
    is answered with status 500, [send_to_external_system] returns with one
    new Delivery row whose status is failed and whose attempts counter is
    3; it slept 1 s after the first attempt and 2 s after the second, 3 s
    in all, and not after the third. *)
Theorem C2_all_attempts_fail env run_id payload w :
  is_set (INTEGRATION_URL env) = true ->
  (forall attempt, exists body,
     http_post env attempt (default "" (INTEGRATION_URL env)) payload
     = Response 500 body) ->
  exists d w',
    send_to_external_system env run_id payload w = (Ok tt, w')
    /\ integration_deliveries (committed w')
       = integration_deliveries (session w) ++ [d]
    /\ IntegrationDelivery.run_id d = run_id
    /\ IntegrationDelivery.status d = DeliveryStatus.failed
    /\ IntegrationDelivery.attempts d = 3
    /\ slept w' = slept w ++ [1; 2]
    /\ clock w' = clock w + 3.
Proof.
  intros Hset Hpost.
  destruct (Hpost 0) as [b0 H0], (Hpost 1) as [b1 H1], (Hpost 2) as [b2 H2].
  unfold send_to_external_system. rewrite Hset. cbn.
  unfold delivery_attempt. rewrite H0, H1, H2. cbn.
  eexists _, _. split; [reflexivity|]. cbn.
  rewrite !alter_last. cbn. rewrite <- !app_assoc. cbn.
  repeat split; try done. lia.
Qed.

Lemma C2_witness :
  exists d w',
    send_to_external_system (Example.env_endpoint (Response 500 "down")) 20
      Example.payload Example.world = (Ok tt, w')
    /\ integration_deliveries (committed w')
       = integration_deliveries (session Example.world) ++ [d]
    /\ IntegrationDelivery.run_id d = 20
    /\ IntegrationDelivery.status d = DeliveryStatus.failed
    /\ IntegrationDelivery.attempts d = 3
    /\ slept w' = slept Example.world ++ [1; 2]
    /\ clock w' = clock Example.world + 3.
Proof.
  apply (C2_all_attempts_fail
           (Example.env_endpoint (Response 500 "down")) 20 Example.payload
           Example.world).
  - reflexivity.
  - intros attempt. exists "down". reflexivity.
Defined.

(** C2 as stated fails: against an endpoint that always answers 500 the
    sleeps are 1 s and 2 s; the waits do not add up to 1 + 2 + 4 = 7 s. *)
Lemma C2_counterexample :
  let w' := after (send_to_external_system
                     (Example.env_endpoint (Response 500 "down")) 20
                     Example.payload) Example.world in
  (IntegrationDelivery.attempts <$> last_delivery w') = Some 3
  /\ slept w' = [1; 2]
  /\ sum_list (slept w') <> 1 + 2 + 4
  /\ ~ (7 <= clock w' - clock Example.world).
Proof.
  vm_compute. repeat split; try done; lia.
Qed.

(** C9, as the code has it. After one delivery attempt on the delivery
    object at position [h]: when the endpoint answered with a status other
    than 200, 201 and 202, [last_error] is "HTTP <status>: " followed by
    the first 200 characters of the response body; when the request raised,
    [last_error] is the whole exception text, whatever its length. *)
Theorem C9_last_error_of_failed_attempt env h url payload attempt w d :
  integration_deliveries (session w) !! h = Some d ->
  let w' := after (delivery_attempt env h url payload attempt) w in
  (forall code text,
     http_post env attempt url payload = Response code text ->
     is_success code = false ->
     (IntegrationDelivery.last_error <$> integration_deliveries (committed w') !! h)
     = Some (Some ("HTTP " +:+ str code +:+ ": " +:+ slice_to 200 text))
     /\ String.length (slice_to 200 text) <= 200)
  /\ (forall e,
        http_post env attempt url payload = TransportError e ->
        (IntegrationDelivery.last_error <$> integration_deliveries (committed w') !! h)
        = Some (Some e)).
Proof.
  intros Hd w'. subst w'. unfold after, delivery_attempt, try_except, bind.
  split.
  - intros code text -> Hbad. cbn. rewrite Hbad. cbn.
    rewrite list_lookup_alter_eq, Hd. cbn.
    split; [reflexivity | apply length_slice_to].
  - intros e ->. cbn.
    rewrite list_lookup_alter_eq, Hd. reflexivity.
Qed.

Lemma C9_witness :
  let d := {| IntegrationDelivery.id := 30; IntegrationDelivery.run_id := 20;
              IntegrationDelivery.status := DeliveryStatus.pending;
              IntegrationDelivery.attempts := 1;
              IntegrationDelivery.last_error := None;
              IntegrationDelivery.created_at := 100;
              IntegrationDelivery.updated_at := 100 |} in
  let w := Example.world_of (with_deliveries (fun _ => [d]) Example.db) in
  let env := Example.env_endpoint (Response 503 "unavailable") in
  let w' := after (delivery_attempt env 0 "http://integration.example/hook"
                     Example.payload 0) w in
  (forall code text,
     http_post env 0 "http://integration.example/hook" Example.payload
     = Response code text ->
     is_success code = false ->
     (IntegrationDelivery.last_error <$> integration_deliveries (committed w') !! 0)
     = Some (Some ("HTTP " +:+ str code +:+ ": " +:+ slice_to 200 text))
     /\ String.length (slice_to 200 text) <= 200)
  /\ (forall e,
        http_post env 0 "http://integration.example/hook" Example.payload
        = TransportError e ->
        (IntegrationDelivery.last_error <$> integration_deliveries (committed w') !! 0)
        = Some (Some e)).
Proof.
  intros d w env.
  apply (C9_last_error_of_failed_attempt env 0
           "http://integration.example/hook" Example.payload 0 w d).
  reflexivity.
Defined.

(** C9 as stated fails for a transport-level exception: an exception text
    of 201 characters is written to [last_error] in full, not cut to its
    first 200 characters. *)
Lemma C9_counterexample :
  let w' := after (send_to_external_system
                     (Example.env_endpoint (TransportError Example.long_error))
                     20 Example.payload) Example.world in
  (IntegrationDelivery.last_error <$> last_delivery w')
  = Some (Some Example.long_error)
  /\ String.length Example.long_error = 201
  /\ slice_to 200 Example.long_error <> Example.long_error.
Proof.
  vm_compute. repeat split; discriminate.
Qed.

(** ** The generation step *)

Lemma _run_gemini_agent_total env ctx text w :
  exists reply entries,
    _run_gemini_agent env ctx text w = (Ok reply, add_logs entries w)
    /\ (is_set (GEMINI_API_KEY env) = false -> reply = "Echo: " +:+ text)
    /\ (is_set (GEMINI_API_KEY env) = true ->
        forall e, generate_content env (chat_history ctx) text = GenRaised e ->
                  reply = "I received your message: " +:+ text).
Proof.
  unfold _run_gemini_agent, chat_history.
  destruct (is_set (GEMINI_API_KEY env)); cbn [negb].
  - unfold try_except.
    destruct (generate_content env _ text) as [t|e]; cbn.
    + exists t, []. unfold add_logs. rewrite app_nil_r. destruct w.
      repeat split; intros; congruence.
    + eexists _, [_]. split; [reflexivity|]. split; intros; congruence.
  - cbn. eexists _, [_]. split; [reflexivity|]. split; intros; congruence.
Qed.

(** ** The artifact side-channel *)

Lemma truthy_digits fuel n acc :
  truthy acc = true -> truthy (digits fuel n acc) = true.
Proof.
  revert n acc.
  induction fuel as [|fuel IH]; intros n acc Hacc; cbn [digits]; [done|].
  destruct (n / 10 =? 0); [reflexivity|]. apply IH. reflexivity.
Qed.

Lemma truthy_str n : truthy (str n) = true.
Proof.
  unfold str. cbn [digits].
  destruct (n / 10 =? 0); [reflexivity|]. apply truthy_digits. reflexivity.
Qed.

Lemma visualization_spec env agent_run text w :
  exists res w',
    visualization env agent_run text w = (Ok res, w')
    /\ conversations (session w') = conversations (session w)
    /\ agent_runs (session w') = agent_runs (session w)
    /\ integration_deliveries (session w') = integration_deliveries (session w)
    /\ committed w' = committed w
    /\ observed w' = observed w
    /\ clock w' = clock w
    /\ (artifact_ok env = true ->
        exists image row,
          messages (session w') = messages (session w) ++ [image]
          /\ media (session w') = media (session w) ++ [row]
          /\ files w' = files w ++ [Media.storage_path row]
          /\ Message.sender image = Sender.assistant
          /\ Message.conversation_id image = AgentRun.conversation_id agent_run
          /\ Message.content_json image
             = Image ("/v1/media/" +:+ str (Media.id row)) "Generated visualization"
          /\ Media.conversation_id row = AgentRun.conversation_id agent_run)
    /\ (artifact_ok env = false -> messages (session w') = messages (session w))
    /\ (generate_chart_ok env = false -> media (session w') = media (session w))
    /\ (step_ok env os_makedirs && step_ok env plt_savefig = false ->
        files w' = files w)
    /\ (step_ok env os_makedirs && step_ok env plt_savefig = true ->
        files w' = files w ++ [chart_path env (uuids w)])
    /\ flush_error w'
       = match flush_failure env with
         | Some e => Some e
         | None => flush_error w
         end.
Proof.
  unfold artifact_ok, generate_chart_ok, flush_failure, step_ok, chart_path.
  unfold visualization, generate_chart, attempt, try_except, bind, may_raise,
    flush.
  destruct (faults env os_makedirs); cbn -[str].
  { eexists _, _. split; [reflexivity|]. cbn. repeat split; done. }
  destruct (faults env plt_savefig); cbn -[str].
  { eexists _, _. split; [reflexivity|]. cbn. repeat split; done. }
  destruct (faults env persist_media); cbn -[str].
  { eexists _, _. split; [reflexivity|]. cbn -[str]. repeat split; done. }
  rewrite truthy_str.
  destruct (faults env persist_image); cbn -[str].
  { eexists _, _. split; [reflexivity|]. cbn -[str]. repeat split; done. }
  eexists _, _. split; [reflexivity|]. cbn -[str].
  repeat split; try done.
  intros _. eexists _, _. repeat split; reflexivity.
Qed.

(** The statement [if generate_visual: ...] of [execute_agent_run]. *)
Lemma visual_step_spec env (b : bool) agent_run text w :
  exists res w',
    (if b then visualization env agent_run text else ret None) w = (Ok res, w')
    /\ conversations (session w') = conversations (session w)
    /\ agent_runs (session w') = agent_runs (session w)
    /\ integration_deliveries (session w') = integration_deliveries (session w)
    /\ committed w' = committed w
    /\ observed w' = observed w
    /\ clock w' = clock w
    /\ (b && artifact_ok env = true ->
        exists image row,
          messages (session w') = messages (session w) ++ [image]
          /\ media (session w') = media (session w) ++ [row]
          /\ files w' = files w ++ [Media.storage_path row]
          /\ Message.sender image = Sender.assistant
          /\ Message.conversation_id image = AgentRun.conversation_id agent_run
          /\ Message.content_json image
             = Image ("/v1/media/" +:+ str (Media.id row)) "Generated visualization"
          /\ Media.conversation_id row = AgentRun.conversation_id agent_run)
    /\ (b && artifact_ok env = false -> messages (session w') = messages (session w))
    /\ (b && generate_chart_ok env = false -> media (session w') = media (session w))
    /\ (b && (step_ok env os_makedirs && step_ok env plt_savefig) = false ->
        files w' = files w)
    /\ (b && (step_ok env os_makedirs && step_ok env plt_savefig) = true ->
        files w' = files w ++ [chart_path env (uuids w)])
    /\ flush_error w'
       = (if b then match flush_failure env with
                    | Some e => Some e
                    | None => flush_error w
                    end
          else flush_error w).
Proof.
  destruct b; cbn [andb].
  - apply visualization_spec.
  - exists None, w. repeat split; done.
Qed.

(** ** The run pipeline *)

Lemma list_find_alter_same {A} (P : A -> Prop) `{!forall x, Decision (P x)}
    (f : A -> A) (l : list A) h x :
  list_find P l = Some (h, x) -> P (f x) ->
  list_find P (alter f h l) = Some (h, f x).
Proof.
  intros (Hl & HP & Hmin)%list_find_Some HPf.
  apply list_find_Some. split_and!.
  - by rewrite list_lookup_alter_eq, Hl.
  - done.
  - intros j y Hj Hlt. rewrite list_lookup_alter_ne in Hj by lia. eauto.
Qed.

(** What one execution of an existing run does when no flush of the
    artifact side-channel fails. *)
Lemma execute_agent_run_spec env run_id w h r :
  first_run run_id (session w) = Some (h, r) ->
  lost_session env r (session w) = None ->
  let runs1 := alter (AgentRun.set_running (clock w)) h (agent_runs (session w)) in
  exists res w' mids final_run,
    execute_agent_run env run_id w = (res, w')
    /\ observed w' = observed w ++ mids ++ [session w']
    /\ mids <> []
    /\ Forall (fun d => agent_runs d = runs1) mids
    /\ committed w' = session w'
    /\ agent_runs (session w') = alter final_run h runs1
    /\ (res = Ok tt /\ final_run = AgentRun.set_succeeded (clock w')
        \/ exists e, res = Raise e /\ final_run = AgentRun.set_failed (clock w') e)
    /\ (first_message (AgentRun.trigger_message_id r) (session w) = None ->
        res = Raise "'NoneType' object has no attribute 'content_json'")
    /\ (forall m,
          first_message (AgentRun.trigger_message_id r) (session w) = Some m ->
          let text := get_text (Message.content_json m) in
          (is_Some (first_conversation (AgentRun.conversation_id r) (session w)) ->
           res = Ok tt)
          /\ exists reply extra body,
               messages (session w') = messages (session w) ++ reply :: extra
               /\ Message.sender reply = Sender.assistant
               /\ Message.conversation_id reply = AgentRun.conversation_id r
               /\ Message.content_json reply = Text body []
               /\ (is_set (GEMINI_API_KEY env) = false -> body = "Echo: " +:+ text)
               /\ (is_set (GEMINI_API_KEY env) = true ->
                   forall e,
                     generate_content env
                       (chat_history (build_context
                          (conversation_messages (AgentRun.conversation_id r)
                             (session w)))) text = GenRaised e ->
                     body = "I received your message: " +:+ text)
               /\ (wants_visual text && artifact_ok env = true ->
                   exists image row,
                     extra = [image]
                     /\ media (session w') = media (session w) ++ [row]
                     /\ files w' = files w ++ [Media.storage_path row]
                     /\ Message.sender image = Sender.assistant
                     /\ Message.content_json image
                        = Image ("/v1/media/" +:+ str (Media.id row))
                            "Generated visualization")
               /\ (wants_visual text && artifact_ok env = false -> extra = [])
               /\ (wants_visual text && generate_chart_ok env = false ->
                   media (session w') = media (session w))
               /\ (wants_visual text
                   && (step_ok env os_makedirs && step_ok env plt_savefig) = false ->
                   files w' = files w)).
Proof.
  intros Hrun Hlost runs1.
  unfold execute_agent_run. unfold bind at 1. unfold gets at 1. rewrite Hrun.
  unfold lost_session in Hlost.
  destruct (first_message (AgentRun.trigger_message_id r) (session w))
    as [m|] eqn:Htrig.
  all: destruct w as [[convs msgs runs meds dels] comm obs fls lgs slp clk uu q fe].
  all: cbn in runs1; subst runs1.
  all: unfold first_message in Htrig; cbn [session messages] in Htrig.
  all: run_prims; rewrite Htrig.
  2:{ run_prims.
      eexists _, _, [_], _. split; [reflexivity|]. cbn.
      split; [by rewrite <- app_assoc|].
      split; [done|]. split; [repeat constructor|].
      split; [done|]. split; [done|].
      split; [right; eauto|]. split; [done|]. intros m. discriminate. }
  match goal with
  | |- context [_run_gemini_agent env ?c ?t ?W] =>
      destruct (_run_gemini_agent_total env c t W)
        as (reply & entries & -> & Hecho & Hfall)
  end.
  run_prims.
  match goal with
  | |- context [(if ?b then visualization env r ?t else _) ?W] =>
      destruct (visual_step_spec env b r t W)
        as (mid & wv & Hv & Hc & Hr & Hd & Hcm & Ho & Hck
              & Hok & Hbad & Hmed & Hfil & _ & Hfe)
  end.
  unfold ret in Hv. rewrite Hv. clear Hv.
  destruct wv as [[convs' msgs' runs' meds' dels'] comm' obs' fls' lgs' slp' clk' uu' q' fe'].
  cbn in Hc, Hr, Hd, Hcm, Ho, Hck, Hok, Hbad, Hmed, Hfil, Hfe.
  assert (Hact : fe' = None).
  { rewrite Hfe. destruct (wants_visual _); [|done]. by rewrite Hlost. }
  clear Hfe. subst.
  run_prims.
  assert (Hfacts : exists rep extra body,
    msgs' = msgs ++ rep :: extra
    /\ Message.sender rep = Sender.assistant
    /\ Message.conversation_id rep = AgentRun.conversation_id r
    /\ Message.content_json rep = Text body []
    /\ body = reply
    /\ (wants_visual (get_text (Message.content_json m)) && artifact_ok env = true ->
        exists image row,
          extra = [image]
          /\ meds' = meds ++ [row]
          /\ fls' = fls ++ [Media.storage_path row]
          /\ Message.sender image = Sender.assistant
          /\ Message.content_json image
             = Image ("/v1/media/" +:+ str (Media.id row)) "Generated visualization")
    /\ (wants_visual (get_text (Message.content_json m)) && artifact_ok env = false ->
        extra = [])).
  { destruct (wants_visual (get_text (Message.content_json m)) && artifact_ok env).
    - destruct (Hok eq_refl) as (image & row & -> & -> & -> & ? & ? & ? & ?).
      eexists _, [image], reply. rewrite <- app_assoc.
      split; [reflexivity|]. repeat split; try done.
      intros _. exists image, row. done.
    - rewrite (Hbad eq_refl). eexists _, [], reply.
      split; [reflexivity|]. repeat split; done. }
  destruct Hfacts as (rep & extra & body & -> & Hs & Hcid & Hcj & -> & Himg & Hnone).
  clear Hok Hbad.
  destruct (snd <$> list_find _ convs) as [c|] eqn:Hconv.
  - match goal with
    | |- context [send_to_external_system env run_id ?P ?W] =>
        destruct (send_to_external_system_frame env run_id P W)
          as (w2 & -> & Hfr)
    end.
    destruct w2 as [[convs2 msgs2 runs2 meds2 dels2] comm2 obs2 fls2 lgs2 slp2 clk2 uu2 q2 fe2].
    unfold delivery_frame in Hfr. cbn in Hfr.
    destruct Hfr as (-> & -> & -> & -> & -> & -> & new & -> & Hnew).
    run_prims.
    eexists _, _, (_ :: new), _. split; [reflexivity|]. cbn.
    split; [by rewrite <- !app_assoc|].
    split; [done|]. split; [by constructor|].
    split; [done|]. split; [done|].
    split; [left; done|]. split; [done|].
    intros m0 [= <-]. split; [done|].
    exists rep, extra, reply. repeat split; try done.
  - run_prims.
    eexists _, _, [_], _. split; [reflexivity|]. cbn.
    split; [by rewrite <- !app_assoc|].
    split; [done|]. split; [by repeat constructor|].
    split; [done|]. split; [done|].
    split; [right; eauto|]. split; [done|].
    intros m0 [= <-]. split; [intros [? [=]]|].
    exists rep, extra, reply. repeat split; try done.
Qed.

(** What one execution does when a flush of the artifact side-channel
    fails: the lazy load that follows raises [PendingRollbackError], and so
    does the commit of the handler. Nothing is committed after the state
    that shows the run as running; no request is sent and nothing is
    slept; the chart file stays. *)
Lemma execute_agent_run_lost env run_id w h r e :
  first_run run_id (session w) = Some (h, r) ->
  lost_session env r (session w) = Some e ->
  let running :=
    with_agent_runs (alter (AgentRun.set_running (clock w)) h) (session w) in
  exists w',
    execute_agent_run env run_id w = (Raise (PendingRollbackError e), w')
    /\ committed w' = running
    /\ observed w' = observed w ++ [running]
    /\ files w' = files w ++ [chart_path env (S (uuids w))]
    /\ slept w' = slept w
    /\ clock w' = clock w
    /\ queue w' = queue w
    /\ flush_error w' = Some e
    /\ conversations (session w') = conversations (session w)
    /\ integration_deliveries (session w') = integration_deliveries (session w)
    /\ exists new_messages new_media,
         messages (session w') = messages (session w) ++ new_messages
         /\ length new_messages = 1
         /\ Forall (fun x => Message.sender x = Sender.assistant) new_messages
         /\ media (session w') = media (session w) ++ new_media
         /\ length new_media <= 1.
Proof.
  intros Hrun Hlost. cbv zeta.
  unfold execute_agent_run. unfold bind at 1. unfold gets at 1. rewrite Hrun.
  unfold lost_session in Hlost.
  destruct (first_message (AgentRun.trigger_message_id r) (session w))
    as [m|] eqn:Htrig; [|done].
  destruct (wants_visual (get_text (Message.content_json m))) eqn:Hviz; [|done].
  destruct w as [[convs msgs runs meds dels] comm obs fls lgs slp clk uu q fe].
  unfold first_message in Htrig. cbn [session messages] in Htrig.
  run_prims. rewrite Htrig.
  match goal with
  | |- context [_run_gemini_agent env ?c ?t ?W] =>
      destruct (_run_gemini_agent_total env c t W)
        as (reply & entries & -> & _)
  end.
  run_prims. rewrite Hviz.
  unfold flush_failure, step_ok in Hlost. unfold chart_path.
  unfold visualization, generate_chart, attempt, try_except, bind, may_raise,
    flush.
  destruct (faults env os_makedirs); [done|].
  destruct (faults env plt_savefig); [done|].
  cbn [andb] in Hlost.
  destruct (faults env persist_media) as [e1|].
  - injection Hlost as ->. cbn -[str PendingRollbackError].
    eexists. split; [reflexivity|]. cbn -[str].
    split_and!; try done.
    eexists [_], []. rewrite app_nil_r. split_and!; try done.
    + by repeat constructor.
    + cbn; lia.
  - cbn -[str PendingRollbackError]. rewrite truthy_str. rewrite Hlost.
    cbn -[str PendingRollbackError].
    eexists. split; [reflexivity|]. cbn -[str].
    split_and!; try done.
    eexists [_], [_]. split_and!; try done.
    by repeat constructor.
Qed.

Lemma first_run_alter run_id h r f d d' :
  first_run run_id d = Some (h, r) ->
  AgentRun.id (f r) = AgentRun.id r ->
  agent_runs d' = alter f h (agent_runs d) ->
  first_run run_id d' = Some (h, f r).
Proof.
  unfold first_run. intros Hfind Hid ->.
  apply list_find_alter_same; [done|].
  apply list_find_Some in Hfind as (_ & <- & _). done.
Qed.

Lemma statuses_app run_id l1 l2 :
  statuses run_id (l1 ++ l2) = statuses run_id l1 ++ statuses run_id l2.
Proof. unfold statuses. apply omap_app. Qed.

Lemma statuses_one run_id d s :
  status_of run_id d = Some s -> statuses run_id [d] = [s].
Proof. intros Hs. unfold statuses. cbn. by rewrite Hs. Qed.

Lemma statuses_const run_id s (l : list Db) :
  Forall (fun d => status_of run_id d = Some s) l ->
  statuses run_id l = replicate (length l) s.
Proof.
  induction 1 as [|d l Hd _ IH]; [done|].
  unfold statuses in *. cbn. rewrite Hd. cbn. by rewrite IH.
Qed.

Lemma compress_cons_diff a b l :
  RunStatus.eqb a b = false -> compress (a :: b :: l) = a :: compress (b :: l).
Proof. intros Hab. destruct l; cbn; by rewrite Hab. Qed.

Lemma compress_running_then t k :
  t <> RunStatus.running ->
  compress (replicate (S k) RunStatus.running ++ [t]) = [RunStatus.running; t].
Proof.
  intros Ht. induction k as [|k IH].
  - cbn. destruct t; done.
  - change (replicate (S (S k)) RunStatus.running ++ [t])
      with (RunStatus.running :: (replicate (S k) RunStatus.running ++ [t])).
    cbn [compress]. cbn [replicate app RunStatus.eqb]. exact IH.
Qed.

Lemma lost_session_none env r d m :
  first_message (AgentRun.trigger_message_id r) d = Some m ->
  (wants_visual (get_text (Message.content_json m)) = true ->
   flush_failure env = None) ->
  lost_session env r d = None.
Proof.
  intros Hm Hflush. unfold lost_session. rewrite Hm.
  destruct (wants_visual _); [by apply Hflush|done].
Qed.

Lemma lost_session_some env r d e :
  lost_session env r d = Some e ->
  exists m,
    first_message (AgentRun.trigger_message_id r) d = Some m
    /\ wants_visual (get_text (Message.content_json m)) = true
    /\ flush_failure env = Some e.
Proof.
  unfold lost_session.
  destruct (first_message _ d) as [m|]; [|done].
  destruct (wants_visual _) eqn:Hv; [|done]. eauto.
Qed.

(** The statuses that one execution of an existing run commits. *)
Lemma execute_agent_run_statuses env run_id w h r :
  first_run run_id (session w) = Some (h, r) ->
  exists res w' new,
    execute_agent_run env run_id w = (res, w')
    /\ observed w' = observed w ++ new
    /\ match lost_session env r (session w) with
       | Some e =>
           res = Raise (PendingRollbackError e)
           /\ statuses run_id new = [RunStatus.running]
           /\ status_of run_id (committed w') = Some RunStatus.running
       | None =>
           exists k t,
             statuses run_id new = replicate (S k) RunStatus.running ++ [t]
             /\ status_of run_id (committed w') = Some t
             /\ (res = Ok tt /\ t = RunStatus.succeeded
                 \/ (exists e, res = Raise e) /\ t = RunStatus.failed)
       end.
Proof.
  intros Hrun.
  set (r1 := AgentRun.set_running (clock w) r).
  assert (Hmid : forall d,
            agent_runs d
            = alter (AgentRun.set_running (clock w)) h (agent_runs (session w)) ->
            first_run run_id d = Some (h, r1)).
  { intros d Hd.
    by apply (first_run_alter run_id h r
                (AgentRun.set_running (clock w)) (session w) d). }
  destruct (lost_session env r (session w)) as [e|] eqn:Hlost.
  { destruct (execute_agent_run_lost env run_id w h r e Hrun Hlost)
      as (w' & Hex & Hcomm & Hobs & _).
    exists (Raise (PendingRollbackError e)), w', [committed w'].
    split; [done|]. split; [by rewrite Hcomm|].
    assert (Hs : status_of run_id (committed w') = Some RunStatus.running).
    { unfold status_of. rewrite (Hmid (committed w')); [done|by rewrite Hcomm]. }
    split; [done|]. split; [by apply statuses_one|done]. }
  destruct (execute_agent_run_spec env run_id w h r Hrun Hlost)
    as (res & w' & mids & final_run & Hex & Hobs & Hne & Hmids & Hcomm
          & Hruns & Hfinal & _).
  assert (Hlast : AgentRun.id (final_run r1) = AgentRun.id r1 ->
                  first_run run_id (session w') = Some (h, final_run r1)).
  { intros Hid.
    apply (first_run_alter run_id h r1 final_run
             (with_agent_runs
                (alter (AgentRun.set_running (clock w)) h) (session w))
             (session w')); [by apply Hmid|done..]. }
  assert (Hrunning : statuses run_id mids
                     = replicate (length mids) RunStatus.running).
  { apply statuses_const. eapply Forall_impl; [exact Hmids|].
    intros d Hd. unfold status_of. by rewrite (Hmid d Hd). }
  destruct mids as [|d0 mids]; [done|].
  exists res, w', ((d0 :: mids) ++ [session w']).
  split; [done|]. split; [done|]. exists (length mids).
  destruct Hfinal as [[-> ->]|(e & -> & ->)].
  - exists RunStatus.succeeded.
    assert (Hs : status_of run_id (session w') = Some RunStatus.succeeded).
    { unfold status_of. by rewrite Hlast. }
    split; [|split; [by rewrite Hcomm|by left]].
    rewrite statuses_app, Hrunning, (statuses_one _ _ _ Hs). done.
  - exists RunStatus.failed.
    assert (Hs : status_of run_id (session w') = Some RunStatus.failed).
    { unfold status_of. by rewrite Hlast. }
    split; [|split; [by rewrite Hcomm|right; eauto]].
    rewrite statuses_app, Hrunning, (statuses_one _ _ _ Hs). done.
Qed.

(** A run whose trigger message and conversation exist ends succeeded,
    when no flush of the artifact side-channel fails. *)
Lemma execute_agent_run_succeeds env run_id w h r m c :
  first_run run_id (session w) = Some (h, r) ->
  first_message (AgentRun.trigger_message_id r) (session w) = Some m ->
  first_conversation (AgentRun.conversation_id r) (session w) = Some c ->
  (wants_visual (get_text (Message.content_json m)) = true ->
   flush_failure env = None) ->
  outcome (execute_agent_run env run_id) w = Ok tt
  /\ status_of run_id (committed (after (execute_agent_run env run_id) w))
     = Some RunStatus.succeeded.
Proof.
  intros Hrun Hm Hc Hflush.
  pose proof (lost_session_none env r (session w) m Hm Hflush) as Hlost.
  destruct (execute_agent_run_spec env run_id w h r Hrun Hlost)
    as (res & w' & _ & _ & Hex & _ & _ & _ & _ & _ & _ & _ & Hsome).
  destruct (Hsome m Hm) as [Hok _]. rewrite Hok in Hex by (by rewrite Hc).
  destruct (execute_agent_run_statuses env run_id w h r Hrun)
    as (res2 & w2 & new & Hex2 & _ & Hst).
  rewrite Hlost in Hst. destruct Hst as (k & t & _ & Hst & Hres).
  rewrite Hex in Hex2. injection Hex2 as <- <-.
  unfold outcome, after. rewrite Hex. cbn. split; [done|].
  destruct Hres as [[_ ->]|[[e [=]] _]]. done.
Qed.

(** The messages that readers see after a run whose flush failed are the
    messages that were there. *)
Lemma execute_agent_run_lost_messages env run_id w h r e :
  first_run run_id (session w) = Some (h, r) ->
  lost_session env r (session w) = Some e ->
  let w' := after (execute_agent_run env run_id) w in
  messages (committed w') = messages (session w)
  /\ media (committed w') = media (session w)
  /\ integration_deliveries (committed w') = integration_deliveries (session w).
Proof.
  intros Hrun Hlost. cbv zeta.
  destruct (execute_agent_run_lost env run_id w h r e Hrun Hlost)
    as (w' & Hex & Hcomm & _).
  unfold after. rewrite Hex. cbn [snd]. by rewrite Hcomm.
Qed.

(** ** Claims about the run *)

(** C1, as the code has it. The statuses that one execution of an existing
    run commits begin with running and are a prefix of running, succeeded
    or of running, failed; so a run that is queued on entry passes through
    a prefix of queued, running, succeeded or of queued, running, failed
    that reaches running. The status on entry is not looked at. *)
Theorem C1_statuses_of_one_execution env run_id w h r :
  first_run run_id (session w) = Some (h, r) ->
  exists new,
    observed (after (execute_agent_run env run_id) w) = observed w ++ new
    /\ (let steps := compress (statuses run_id new) in
        [RunStatus.running] `prefix_of` steps
        /\ (steps `prefix_of` [RunStatus.running; RunStatus.succeeded]
            \/ steps `prefix_of` [RunStatus.running; RunStatus.failed]))
    /\ (AgentRun.status r = RunStatus.queued ->
        let trace := compress (AgentRun.status r :: statuses run_id new) in
        [RunStatus.queued; RunStatus.running] `prefix_of` trace
        /\ (trace `prefix_of`
              [RunStatus.queued; RunStatus.running; RunStatus.succeeded]
            \/ trace `prefix_of`
                 [RunStatus.queued; RunStatus.running; RunStatus.failed])).
Proof.
  intros Hrun.
  destruct (execute_agent_run_statuses env run_id w h r Hrun)
    as (res & w' & new & Hex & Hobs & Hst).
  exists new. unfold after. rewrite Hex. cbn [snd]. split; [done|].
  destruct (lost_session env r (session w)) as [e|].
  - destruct Hst as (_ & -> & _). cbn. split.
    + split; [by exists []|]. left. by eexists [_].
    + intros ->. cbn. split; [by exists []|]. left. by eexists [_].
  - destruct Hst as (k & t & -> & _ & Hres).
    assert (Ht : t = RunStatus.succeeded \/ t = RunStatus.failed)
      by (destruct Hres as [[_ ->]|[_ ->]]; auto).
    assert (Hc : compress (replicate (S k) RunStatus.running ++ [t])
                 = [RunStatus.running; t]).
    { apply compress_running_then. destruct Ht as [-> | ->]; done. }
    split.
    + cbv zeta. rewrite Hc. split; [by eexists [_]|].
      destruct Ht as [-> | ->]; [left|right]; by exists [].
    + intros ->. cbv zeta.
      change (replicate (S k) RunStatus.running ++ [t])
        with (RunStatus.running :: (replicate k RunStatus.running ++ [t])) in *.
      rewrite compress_cons_diff by done. rewrite Hc.
      split; [by eexists [_]|].
      destruct Ht as [-> | ->]; [left|right]; by exists [].
Qed.

Lemma C1_witness :
  exists new,
    observed (after (execute_agent_run
                       (Example.env_endpoint (Response 500 "down")) 20)
                Example.world)
    = observed Example.world ++ new
    /\ (let steps := compress (statuses 20 new) in
        [RunStatus.running] `prefix_of` steps
        /\ (steps `prefix_of` [RunStatus.running; RunStatus.succeeded]
            \/ steps `prefix_of` [RunStatus.running; RunStatus.failed]))
    /\ (AgentRun.status Example.run = RunStatus.queued ->
        let trace := compress (AgentRun.status Example.run :: statuses 20 new) in
        [RunStatus.queued; RunStatus.running] `prefix_of` trace
        /\ (trace `prefix_of`
              [RunStatus.queued; RunStatus.running; RunStatus.succeeded]
            \/ trace `prefix_of`
                 [RunStatus.queued; RunStatus.running; RunStatus.failed])).
Proof.
  apply (C1_statuses_of_one_execution
           (Example.env_endpoint (Response 500 "down")) 20 Example.world
           0 Example.run).
  reflexivity.
Defined.

(** C1 as stated fails when the same run id is processed a second time:
    the run goes from succeeded back to running, and the statuses it
    passes through are queued, running, succeeded, running, succeeded. *)
Lemma C1_counterexample :
  let w1 := after (execute_agent_run Example.env 20) Example.world in
  let w2 := after (execute_agent_run Example.env 20) w1 in
  let trace := compress (RunStatus.queued :: statuses 20 (observed w2)) in
  status_of 20 (committed w1) = Some RunStatus.succeeded
  /\ trace = [RunStatus.queued; RunStatus.running; RunStatus.succeeded;
              RunStatus.running; RunStatus.succeeded]
  /\ ~ trace `prefix_of`
         [RunStatus.queued; RunStatus.running; RunStatus.succeeded]
  /\ ~ trace `prefix_of`
         [RunStatus.queued; RunStatus.running; RunStatus.failed].
Proof.
  vm_compute. split; [done|]. split; [done|].
  split; intros [k Hk]; discriminate.
Qed.

(** C4. For a run whose trigger message and conversation exist, whatever
    the integration endpoint is and however it answers: when the run has
    produced and persisted its assistant reply, that is, when the reply is
    among the messages that readers see after the run, the run has
    returned normally and its status is succeeded. *)
Theorem C4_delivery_never_decides_run_status env url post run_id w h r m c :
  first_run run_id (session w) = Some (h, r) ->
  first_message (AgentRun.trigger_message_id r) (session w) = Some m ->
  first_conversation (AgentRun.conversation_id r) (session w) = Some c ->
  let env' := with_integration url post env in
  let w' := after (execute_agent_run env' run_id) w in
  (exists reply extra,
     messages (committed w') = messages (session w) ++ reply :: extra
     /\ Message.sender reply = Sender.assistant
     /\ is_text reply = true) ->
  outcome (execute_agent_run env' run_id) w = Ok tt
  /\ status_of run_id (committed w') = Some RunStatus.succeeded.
Proof.
  intros Hrun Hm Hc env' w' (reply & extra & Hmsgs & _).
  apply (execute_agent_run_succeeds env' run_id w h r m c Hrun Hm Hc).
  intros Hviz.
  destruct (flush_failure env') as [e|] eqn:Hflush; [exfalso|done].
  assert (Hlost : lost_session env' r (session w) = Some e).
  { unfold lost_session. by rewrite Hm, Hviz. }
  destruct (execute_agent_run_lost_messages env' run_id w h r e Hrun Hlost)
    as (Hsame & _).
  subst w'. rewrite Hsame in Hmsgs.
  apply (f_equal length) in Hmsgs. rewrite length_app in Hmsgs.
  cbn in Hmsgs. lia.
Qed.

Lemma C4_witness :
  let env' := with_integration (Some "http://integration.example/hook")
                (fun _ _ _ => TransportError "connection refused") Example.env in
  outcome (execute_agent_run env' 20) Example.world = Ok tt
  /\ status_of 20 (committed (after (execute_agent_run env' 20) Example.world))
     = Some RunStatus.succeeded.
Proof.
  apply (C4_delivery_never_decides_run_status Example.env
           (Some "http://integration.example/hook")
           (fun _ _ _ => TransportError "connection refused")
           20 Example.world 0 Example.run Example.trigger Example.conversation);
    try reflexivity.
  vm_compute. eexists _, _. split; [reflexivity|]. done.
Defined.

(** C5. In a database that keeps the foreign key of the runs' trigger
    message, when the run is missing at dequeue time, or its trigger
    message is, [execute_agent_run] returns normally and leaves the world
    as it was but for one log entry: no row is changed, nothing is
    enqueued again, nothing is slept. The foreign key leaves only the
    first case: a run whose trigger message was deleted is deleted with
    it. *)
Theorem C5_missing_run_only_logs env run_id w :
  foreign_keys (session w) ->
  first_run run_id (session w) = None
  \/ (exists h r,
        first_run run_id (session w) = Some (h, r)
        /\ first_message (AgentRun.trigger_message_id r) (session w) = None) ->
  execute_agent_run env run_id w
  = (Ok tt, add_logs [(ERROR, "Agent run not found")] w).
Proof.
  intros Hfk [Hrun|(h & r & Hrun & Hnone)].
  - unfold execute_agent_run, bind, gets. by rewrite Hrun.
  - exfalso. apply list_find_Some in Hrun as (Hh & _ & _).
    eapply Forall_lookup_1 in Hfk; [|exact Hh].
    rewrite Hnone in Hfk. by destruct Hfk.
Qed.

Lemma C5_witness :
  execute_agent_run Example.env 21 Example.world
  = (Ok tt, add_logs [(ERROR, "Agent run not found")] Example.world).
Proof.
  apply (C5_missing_run_only_logs Example.env 21 Example.world).
  - repeat constructor. by eexists.
  - left. reflexivity.
Defined.




(** C10. With a generation credential set, [_run_gemini_agent] never
    raises; when the capability call raises it returns
    "I received your message: " followed by the input. So the exception of
    the capability does not reach the handler of [execute_agent_run]: a
    run whose trigger message and conversation exist does not end failed,
    an exception that leaves it is that of a failed flush, and when no
    flush fails the run stores the fallback text as the assistant reply,
    returns normally and ends succeeded. *)
Theorem C10_capability_exceptions_absorbed env run_id w h r m c :
  is_set (GEMINI_API_KEY env) = true ->
  first_run run_id (session w) = Some (h, r) ->
  first_message (AgentRun.trigger_message_id r) (session w) = Some m ->
  first_conversation (AgentRun.conversation_id r) (session w) = Some c ->
  (forall ctx text w0, exists reply w1,
     _run_gemini_agent env ctx text w0 = (Ok reply, w1))
  /\ (forall ctx text w0 e,
        generate_content env (chat_history ctx) text = GenRaised e ->
        _run_gemini_agent env ctx text w0
        = (Ok ("I received your message: " +:+ text),
           add_logs [(ERROR, "Gemini API call failed: " +:+ e)] w0))
  /\ (forall e,
        generate_content env
          (chat_history (build_context
             (conversation_messages (AgentRun.conversation_id r) (session w))))
          (get_text (Message.content_json m)) = GenRaised e ->
        let w' := after (execute_agent_run env run_id) w in
        status_of run_id (committed w') <> Some RunStatus.failed
        /\ (forall x,
              outcome (execute_agent_run env run_id) w = Raise x ->
              exists e0, flush_failure env = Some e0
                         /\ x = PendingRollbackError e0)
        /\ ((wants_visual (get_text (Message.content_json m)) = true ->
             flush_failure env = None) ->
            outcome (execute_agent_run env run_id) w = Ok tt
            /\ status_of run_id (committed w') = Some RunStatus.succeeded
            /\ exists reply extra,
                 messages (committed w') = messages (session w) ++ reply :: extra
                 /\ Message.sender reply = Sender.assistant
                 /\ Message.content_json reply
                    = Text ("I received your message: "
                            +:+ get_text (Message.content_json m)) [])).
Proof.
  intros Hkey Hrun Hm Hc. split; [|split].
  - intros ctx text w0.
    destruct (_run_gemini_agent_total env ctx text w0) as (reply & ? & ? & _).
    eauto.
  - intros ctx text w0 e He.
    unfold _run_gemini_agent. rewrite Hkey. cbn [negb].
    unfold try_except. fold (chat_history ctx). rewrite He. reflexivity.
  - intros e He w'.
    assert (Hsurvive :
      (wants_visual (get_text (Message.content_json m)) = true ->
       flush_failure env = None) ->
      outcome (execute_agent_run env run_id) w = Ok tt
      /\ status_of run_id (committed w') = Some RunStatus.succeeded
      /\ exists reply extra,
           messages (committed w') = messages (session w) ++ reply :: extra
           /\ Message.sender reply = Sender.assistant
           /\ Message.content_json reply
              = Text ("I received your message: "
                      +:+ get_text (Message.content_json m)) []).
    { intros Hflush.
      destruct (execute_agent_run_succeeds env run_id w h r m c Hrun Hm Hc Hflush)
        as [Hok Hst].
      split; [done|]. split; [done|].
      pose proof (lost_session_none env r (session w) m Hm Hflush) as Hlost.
      destruct (execute_agent_run_spec env run_id w h r Hrun Hlost)
        as (res & w1 & _ & _ & Hex & _ & _ & _ & Hcomm & _ & _ & _ & Hsome).
      destruct (Hsome m Hm)
        as (_ & reply & extra & body & Hmsgs & Hs & _ & Hcj & _ & Hfall & _).
      subst w'. unfold after. rewrite Hex. cbn [snd]. rewrite Hcomm.
      exists reply, extra. split; [done|]. split; [done|].
      by rewrite Hcj, (Hfall Hkey e He). }
    destruct (lost_session env r (session w)) as [e0|] eqn:Hlost.
    + destruct (lost_session_some env r (session w) e0 Hlost)
        as (m' & Hm' & Hviz & Hflush).
      rewrite Hm in Hm'. injection Hm' as <-.
      destruct (execute_agent_run_statuses env run_id w h r Hrun)
        as (res & w1 & new & Hex & _ & Hst).
      rewrite Hlost in Hst. destruct Hst as (-> & _ & Hstatus).
      subst w'. unfold outcome, after. rewrite Hex. cbn [fst snd].
      split; [by rewrite Hstatus|]. split.
      * intros x [= <-]. eauto.
      * intros Hnone. rewrite (Hnone Hviz) in Hflush. done.
    + assert (Hflush : wants_visual (get_text (Message.content_json m)) = true ->
                       flush_failure env = None).
      { intros Hviz. unfold lost_session in Hlost. by rewrite Hm, Hviz in Hlost. }
      destruct (Hsurvive Hflush) as (Hok & Hst & Hreply).
      split; [by rewrite Hst|]. split; [|done].
      intros x Hx. rewrite Hok in Hx. done.
Qed.

Lemma C10_witness :
  (forall ctx text w0, exists reply w1,
     _run_gemini_agent Example.env_capability_raises ctx text w0 = (Ok reply, w1))
  /\ (forall ctx text w0 e,
        generate_content Example.env_capability_raises (chat_history ctx) text
        = GenRaised e ->
        _run_gemini_agent Example.env_capability_raises ctx text w0
        = (Ok ("I received your message: " +:+ text),
           add_logs [(ERROR, "Gemini API call failed: " +:+ e)] w0))
  /\ (forall e,
        generate_content Example.env_capability_raises
          (chat_history (build_context
             (conversation_messages (AgentRun.conversation_id Example.run)
                (session Example.world))))
          (get_text (Message.content_json Example.trigger)) = GenRaised e ->
        let w' := after (execute_agent_run Example.env_capability_raises 20)
                    Example.world in
        status_of 20 (committed w') <> Some RunStatus.failed
        /\ (forall x,
              outcome (execute_agent_run Example.env_capability_raises 20)
                Example.world = Raise x ->
              exists e0, flush_failure Example.env_capability_raises = Some e0
                         /\ x = PendingRollbackError e0)
        /\ ((wants_visual (get_text (Message.content_json Example.trigger)) = true ->
             flush_failure Example.env_capability_raises = None) ->
            outcome (execute_agent_run Example.env_capability_raises 20)
              Example.world = Ok tt
            /\ status_of 20 (committed w') = Some RunStatus.succeeded
            /\ exists reply extra,
                 messages (committed w')
                 = messages (session Example.world) ++ reply :: extra
                 /\ Message.sender reply = Sender.assistant
                 /\ Message.content_json reply
                    = Text ("I received your message: "
                            +:+ get_text (Message.content_json Example.trigger)) [])).
Proof.
  apply (C10_capability_exceptions_absorbed Example.env_capability_raises 20
           Example.world 0 Example.run Example.trigger Example.conversation);
    reflexivity.
Defined.

(** C3, as the code has it. For a run whose trigger text contains "plot:"
    or "chart:" in any letter case. When no step of artifact generation
    raises, the run adds its assistant Text reply and after it exactly one
    assistant Image message, whose url names the one Media row it adds,
    and it writes that row's file. When a step raises, the run leaves no
    Image message and no Media row. When the step that raises comes before
    the figure is saved, the run leaves no file and keeps its Text reply.
    When it is the flush of the Media row or of the Image message, the
    file already written stays, and the run raises, keeps no message at
    all and stays running. *)
Theorem C3_visualization_outcomes env run_id w h r m :
  first_run run_id (session w) = Some (h, r) ->
  first_message (AgentRun.trigger_message_id r) (session w) = Some m ->
  wants_visual (get_text (Message.content_json m)) = true ->
  let w' := after (execute_agent_run env run_id) w in
  (artifact_ok env = true ->
   exists reply image row,
     messages (committed w') = messages (session w) ++ [reply; image]
     /\ Message.sender reply = Sender.assistant
     /\ is_text reply = true
     /\ Message.sender image = Sender.assistant
     /\ Message.content_json image
        = Image ("/v1/media/" +:+ str (Media.id row)) "Generated visualization"
     /\ media (committed w') = media (session w) ++ [row]
     /\ files w' = files w ++ [Media.storage_path row])
  /\ (artifact_ok env = false ->
      media (committed w') = media (session w)
      /\ exists new,
           messages (committed w') = messages (session w) ++ new
           /\ Forall (fun x => is_text x = true) new)
  /\ (step_ok env os_makedirs && step_ok env plt_savefig = false ->
      files w' = files w
      /\ exists reply,
           messages (committed w') = messages (session w) ++ [reply]
           /\ Message.sender reply = Sender.assistant
           /\ is_text reply = true)
  /\ (forall e,
        flush_failure env = Some e ->
        files w' = files w ++ [chart_path env (S (uuids w))]
        /\ messages (committed w') = messages (session w)
        /\ outcome (execute_agent_run env run_id) w
           = Raise (PendingRollbackError e)
        /\ status_of run_id (committed w') = Some RunStatus.running).
Proof.
  intros Hrun Hm Hviz w'.
  destruct (flush_failure env) as [e|] eqn:Hflush.
  - assert (Hlost : lost_session env r (session w) = Some e).
    { unfold lost_session. by rewrite Hm, Hviz. }
    destruct (execute_agent_run_lost env run_id w h r e Hrun Hlost)
      as (w1 & Hex & Hcomm & _ & Hfiles & _).
    destruct (execute_agent_run_statuses env run_id w h r Hrun)
      as (res & w2 & new & Hex2 & _ & Hst).
    rewrite Hlost in Hst. destruct Hst as (_ & _ & Hstatus).
    rewrite Hex in Hex2. injection Hex2 as _ <-.
    subst w'. unfold outcome, after. rewrite Hex. cbn [fst snd].
    rewrite Hcomm. cbn [messages media with_agent_runs].
    rewrite Hcomm in Hstatus.
    unfold flush_failure, artifact_ok, generate_chart_ok, step_ok in *.
    destruct (faults env os_makedirs); [done|].
    destruct (faults env plt_savefig); [done|].
    cbn [andb] in *.
    assert (Hquiet : exists new : list Message.t,
              messages (session w) = messages (session w) ++ new
              /\ Forall (fun x => is_text x = true) new)
      by (exists []; by rewrite app_nil_r).
    destruct (faults env persist_media);
      [|destruct (faults env persist_image); [|done]].
    all: split; [done|]; split; [done|]; split; [done|].
    all: intros e' [= <-]; done.
  - assert (Hlost : lost_session env r (session w) = None).
    { unfold lost_session. by rewrite Hm, Hviz. }
    destruct (execute_agent_run_spec env run_id w h r Hrun Hlost)
      as (res & w1 & _ & _ & Hex & _ & _ & _ & Hcomm & _ & _ & _ & Hsome).
    destruct (Hsome m Hm)
      as (_ & reply & extra & body & Hmsgs & Hs & _ & Hcj & _ & _
            & Himg & Hnone & Hmed & Hfil).
    rewrite Hviz in Himg, Hnone, Hmed, Hfil.
    cbn [andb] in Himg, Hnone, Hmed, Hfil.
    assert (Htext : is_text reply = true) by (unfold is_text; by rewrite Hcj).
    subst w'. unfold after. rewrite Hex. cbn [snd]. rewrite Hcomm.
    split; [|split; [|split; [|done]]].
    + intros Hart. destruct (Himg Hart) as (image & row & -> & ? & ? & ? & ?).
      exists reply, image, row. done.
    + intros Hart. rewrite Hmsgs, (Hnone Hart). split.
      * apply Hmed.
        unfold flush_failure, artifact_ok, generate_chart_ok, step_ok in *.
        destruct (faults env os_makedirs); [done|].
        destruct (faults env plt_savefig); [done|].
        cbn [andb] in *.
        destruct (faults env persist_media); [done|].
        destruct (faults env persist_image); done.
      * exists [reply]. split; [done|]. by constructor.
    + intros Hearly. split; [by apply Hfil|].
      exists reply. rewrite Hmsgs, Hnone; [done|].
      unfold artifact_ok, generate_chart_ok.
      destruct (step_ok env os_makedirs); [|done].
      cbn [andb] in *. by rewrite Hearly.
Qed.

Lemma C3_witness :
  let w' := after (execute_agent_run Example.env 20) Example.world in
  (artifact_ok Example.env = true ->
   exists reply image row,
     messages (committed w') = messages (session Example.world) ++ [reply; image]
     /\ Message.sender reply = Sender.assistant
     /\ is_text reply = true
     /\ Message.sender image = Sender.assistant
     /\ Message.content_json image
        = Image ("/v1/media/" +:+ str (Media.id row)) "Generated visualization"
     /\ media (committed w') = media (session Example.world) ++ [row]
     /\ files w' = files Example.world ++ [Media.storage_path row])
  /\ (artifact_ok Example.env = false ->
      media (committed w') = media (session Example.world)
      /\ exists new,
           messages (committed w') = messages (session Example.world) ++ new
           /\ Forall (fun x => is_text x = true) new)
  /\ (step_ok Example.env os_makedirs && step_ok Example.env plt_savefig = false ->
      files w' = files Example.world
      /\ exists reply,
           messages (committed w') = messages (session Example.world) ++ [reply]
           /\ Message.sender reply = Sender.assistant
           /\ is_text reply = true)
  /\ (forall e,
        flush_failure Example.env = Some e ->
        files w'
        = files Example.world ++ [chart_path Example.env (S (uuids Example.world))]
        /\ messages (committed w') = messages (session Example.world)
        /\ outcome (execute_agent_run Example.env 20) Example.world
           = Raise (PendingRollbackError e)
        /\ status_of 20 (committed w') = Some RunStatus.running).
Proof.
  apply (C3_visualization_outcomes Example.env 20 Example.world
           0 Example.run Example.trigger); reflexivity.
Defined.

(** C3 as stated fails: when the flush of the Media row fails, after the
    figure was saved, the run leaves no Image message and no Media row, but
    the artifact file stays on disk. *)
Lemma C3_counterexample :
  let env := Example.env_fault persist_media in
  let w' := after (execute_agent_run env 20) Example.world in
  wants_visual (get_text (Message.content_json Example.trigger)) = true
  /\ artifact_ok env = false
  /\ messages (committed w') = messages (committed Example.world)
  /\ media (committed w') = []
  /\ files Example.world = []
  /\ files w' = ["./data/media/1001.png"].
Proof.
  vm_compute. done.
Qed.

(** ** Posting a message *)

(** C6, as the code has it. Posting a message to an existing conversation
    of the user, from a fresh session: the user Message and the queued Run
    that points at it become visible in one commit, so every state made
    visible has both or neither; when the operation fails before that
    commit completes, neither is created; when nothing raises, the
    response names both and the run id is enqueued. *)
Theorem C6_post_message_both_or_neither env cid text md uid w c :
  session w = committed w ->
  first_owned_conversation cid uid (session w) = Some c ->
  let res := outcome (post_message env cid text md uid) w in
  let w' := after (post_message env cid text md uid) w in
  exists msg run,
    Message.sender msg = Sender.user
    /\ Message.conversation_id msg = cid
    /\ Message.content_json msg = Text text (default [] md)
    /\ AgentRun.status run = RunStatus.queued
    /\ AgentRun.conversation_id run = cid
    /\ AgentRun.trigger_message_id run = Message.id msg
    /\ let both :=
         with_agent_runs (fun l => l ++ [run])
           (with_messages (fun l => l ++ [msg]) (committed w)) in
       (step_ok env flush_user_message && step_ok env commit_post = true ->
        committed w' = both /\ observed w' = observed w ++ [both])
       /\ (step_ok env flush_user_message && step_ok env commit_post = false ->
           committed w' = committed w /\ observed w' = observed w
           /\ exists e, res = Raise e)
       /\ (step_ok env flush_user_message && step_ok env commit_post
           && step_ok env refresh_run && step_ok env queue_enqueue = true ->
           res = Ok {| r_message_id := Message.id msg;
                       r_run_id := AgentRun.id run;
                       r_status := RunStatus.queued |}
           /\ queue w' = queue w ++ [AgentRun.id run]).
Proof.
  intros Hfresh Hconv res w'. subst res w'.
  destruct w as [[convs msgs runs meds dels] comm obs fls lgs slp clk uu q fe].
  cbn in Hfresh, Hconv. subst comm.
  exists {| Message.id := uu; Message.conversation_id := cid;
            Message.sender := Sender.user;
            Message.content_json := Text text (default [] md);
            Message.created_at := clk |},
         {| AgentRun.id := S uu; AgentRun.conversation_id := cid;
            AgentRun.trigger_message_id := uu;
            AgentRun.status := RunStatus.queued;
            AgentRun.started_at := None; AgentRun.finished_at := None;
            AgentRun.last_error := None; AgentRun.created_at := clk |}.
  do 6 (split; [reflexivity|]).
  unfold outcome, after, post_message, try_finally, post_message_body,
    enqueue_agent_run, may_raise, flush, step_ok, close, push_job.
  run_prims. unfold first_owned_conversation. cbn [conversations].
  rewrite Hconv.
  destruct (faults env flush_user_message);
    [cbn; split_and!; try done; eauto|].
  destruct (faults env commit_post);
    [cbn; split_and!; try done; eauto|].
  destruct (faults env refresh_run);
    [cbn; split_and!; try done; eauto|].
  destruct (faults env queue_enqueue);
    cbn; split_and!; try done; eauto.
Qed.

Lemma C6_witness :
  let res := outcome (post_message Example.env 1 "hello" None 7) Example.world in
  let w' := after (post_message Example.env 1 "hello" None 7) Example.world in
  exists msg run,
    Message.sender msg = Sender.user
    /\ Message.conversation_id msg = 1
    /\ Message.content_json msg = Text "hello" (default [] None)
    /\ AgentRun.status run = RunStatus.queued
    /\ AgentRun.conversation_id run = 1
    /\ AgentRun.trigger_message_id run = Message.id msg
    /\ let both :=
         with_agent_runs (fun l => l ++ [run])
           (with_messages (fun l => l ++ [msg]) (committed Example.world)) in
       (step_ok Example.env flush_user_message
        && step_ok Example.env commit_post = true ->
        committed w' = both /\ observed w' = observed Example.world ++ [both])
       /\ (step_ok Example.env flush_user_message
           && step_ok Example.env commit_post = false ->
           committed w' = committed Example.world
           /\ observed w' = observed Example.world
           /\ exists e, res = Raise e)
       /\ (step_ok Example.env flush_user_message
           && step_ok Example.env commit_post
           && step_ok Example.env refresh_run
           && step_ok Example.env queue_enqueue = true ->
           res = Ok {| r_message_id := Message.id msg;
                       r_run_id := AgentRun.id run;
                       r_status := RunStatus.queued |}
           /\ queue w' = queue Example.world ++ [AgentRun.id run]).
Proof.
  apply (C6_post_message_both_or_neither Example.env 1 "hello" None 7
           Example.world Example.conversation); reflexivity.
Defined.

(** C6 as stated fails when the operation fails after its commit: when
    enqueueing the job raises, the request fails, and the new Message and
    the new queued Run are both there; nothing was enqueued. *)
Lemma C6_counterexample :
  let env := Example.env_fault queue_enqueue in
  let w' := after (post_message env 1 "hello" None 7) Example.world in
  outcome (post_message env 1 "hello" None 7) Example.world = Raise "step failed"
  /\ length (messages (committed w'))
     = length (messages (committed Example.world)) + 1
  /\ length (agent_runs (committed w'))
     = length (agent_runs (committed Example.world)) + 1
  /\ (AgentRun.status <$> last (agent_runs (committed w')))
     = Some RunStatus.queued
  /\ queue w' = [].
Proof.
  vm_compute. done.
Qed.

(** * Further properties *)

(** ** The delivery loop, for every behaviour of the endpoint *)

(** Splits on the answer to attempt [k] and keeps the equation. *)
Ltac answer env payload k H :=
  let c := fresh "code" in
  let t := fresh "text" in
  let e := fresh "exn" in
  destruct (http_post env k (default "" (INTEGRATION_URL env)) payload)
    as [c t|e] eqn:H.

(** Runs [send_to_external_system] on the answers in the context. *)
Ltac run_send Hset :=
  unfold send_to_external_system; rewrite Hset; cbn; unfold delivery_attempt;
  repeat match goal with
         | H : http_post _ _ _ _ = _ |- _ => rewrite H
         | H : is_success _ = _ |- _ => rewrite H
         end;
  cbn; eexists _, _; (split; [reflexivity|]); cbn;
  rewrite ?alter_last; cbn; rewrite <- ?app_assoc; cbn.

Lemma send_first_success env run_id payload w k :
  is_set (INTEGRATION_URL env) = true ->
  k < max_attempts ->
  (forall j, j < k -> attempt_succeeds env payload j = false) ->
  attempt_succeeds env payload k = true ->
  exists d w',
    send_to_external_system env run_id payload w = (Ok tt, w')
    /\ integration_deliveries (committed w')
       = integration_deliveries (session w) ++ [d]
    /\ IntegrationDelivery.run_id d = run_id
    /\ IntegrationDelivery.status d = DeliveryStatus.succeeded
    /\ IntegrationDelivery.attempts d = S k
    /\ IntegrationDelivery.last_error d
       = match k with
         | 0 => None
         | S j => Some (attempt_error env payload j)
         end
    /\ slept w' = slept w ++ take k backoff_delays
    /\ clock w' = clock w + sum_list (take k backoff_delays)
    /\ session w' = committed w'.
Proof.
  intros Hset Hk Hbefore Hk_ok. unfold max_attempts in Hk.
  unfold attempt_succeeds, attempt_error in *.
  destruct k as [|[|[|k]]]; [| | |lia].
  - answer env payload 0 H0; [|done].
    run_send Hset. rewrite app_nil_r. repeat split; lia.
  - pose proof (Hbefore 0 ltac:(lia)) as Hf0.
    answer env payload 0 H0; answer env payload 1 H1; try done;
      run_send Hset; repeat split; lia.
  - pose proof (Hbefore 0 ltac:(lia)) as Hf0.
    pose proof (Hbefore 1 ltac:(lia)) as Hf1.
    answer env payload 0 H0; answer env payload 1 H1;
      answer env payload 2 H2; try done;
      run_send Hset; repeat split; lia.
Qed.

Lemma send_exhausted env run_id payload w :
  is_set (INTEGRATION_URL env) = true ->
  (forall j, j < max_attempts -> attempt_succeeds env payload j = false) ->
  exists d w',
    send_to_external_system env run_id payload w = (Ok tt, w')
    /\ integration_deliveries (committed w')
       = integration_deliveries (session w) ++ [d]
    /\ IntegrationDelivery.run_id d = run_id
    /\ IntegrationDelivery.status d = DeliveryStatus.failed
    /\ IntegrationDelivery.attempts d = max_attempts
    /\ IntegrationDelivery.last_error d = Some (attempt_error env payload 2)
    /\ slept w' = slept w ++ [1; 2]
    /\ clock w' = clock w + 3
    /\ session w' = committed w'.
Proof.
  intros Hset Hall. unfold max_attempts in *.
  pose proof (Hall 0 ltac:(lia)) as Hf0.
  pose proof (Hall 1 ltac:(lia)) as Hf1.
  pose proof (Hall 2 ltac:(lia)) as Hf2.
  unfold attempt_succeeds, attempt_error in *.
  answer env payload 0 H0; answer env payload 1 H1; answer env payload 2 H2;
    run_send Hset; repeat split; lia.
Qed.

(** X1. With an endpoint configured, whatever it answers,
    [send_to_external_system] returns and leaves exactly one new Delivery
    row, which is never left pending: its status is succeeded exactly when
    one of the three attempts was answered with 200, 201 or 202, and failed
    otherwise; its attempts counter is between 1 and 3; the function slept
    3 seconds at most. *)
Theorem X1_delivery_always_settled env run_id payload w :
  is_set (INTEGRATION_URL env) = true ->
  exists d w' new,
    send_to_external_system env run_id payload w = (Ok tt, w')
    /\ integration_deliveries (committed w')
       = integration_deliveries (session w) ++ [d]
    /\ IntegrationDelivery.run_id d = run_id
    /\ IntegrationDelivery.status d
       = (if attempt_succeeds env payload 0 || attempt_succeeds env payload 1
             || attempt_succeeds env payload 2
          then DeliveryStatus.succeeded else DeliveryStatus.failed)
    /\ 1 <= IntegrationDelivery.attempts d <= max_attempts
    /\ slept w' = slept w ++ new
    /\ clock w' = clock w + sum_list new
    /\ sum_list new <= 3.
Proof.
  intros Hset.
  destruct (attempt_succeeds env payload 0) eqn:H0.
  { destruct (send_first_success env run_id payload w 0 Hset)
      as (d & w' & ? & ? & ? & ? & ? & ? & ? & ? & _);
      [unfold max_attempts; lia|intros; lia|done|].
    exists d, w', (take 0 backoff_delays). unfold max_attempts.
    cbn in *. split_and!; try done; lia. }
  destruct (attempt_succeeds env payload 1) eqn:H1.
  { destruct (send_first_success env run_id payload w 1 Hset)
      as (d & w' & ? & ? & ? & ? & ? & ? & ? & ? & _);
      [unfold max_attempts; lia
      |intros j Hj; by replace j with 0 by lia|done|].
    exists d, w', (take 1 backoff_delays). unfold max_attempts.
    cbn in *. split_and!; try done; lia. }
  destruct (attempt_succeeds env payload 2) eqn:H2.
  { destruct (send_first_success env run_id payload w 2 Hset)
      as (d & w' & ? & ? & ? & ? & ? & ? & ? & ? & _);
      [unfold max_attempts; lia
      |intros [|[|j]] Hj; [done|done|lia]|done|].
    exists d, w', (take 2 backoff_delays). unfold max_attempts.
    cbn in *. split_and!; try done; lia. }
  destruct (send_exhausted env run_id payload w Hset)
    as (d & w' & ? & ? & ? & ? & ? & ? & ? & ? & _).
  { unfold max_attempts. intros [|[|[|j]]] Hj; [done..|lia]. }
  exists d, w', [1; 2]. unfold max_attempts in *.
  cbn. split_and!; try done; lia.
Qed.

Lemma X1_witness :
  exists d w' new,
    send_to_external_system
      (Example.env_endpoint (TransportError "connection refused")) 20
      Example.payload Example.world = (Ok tt, w')
    /\ integration_deliveries (committed w')
       = integration_deliveries (session Example.world) ++ [d]
    /\ IntegrationDelivery.run_id d = 20
    /\ IntegrationDelivery.status d
       = (if attempt_succeeds
               (Example.env_endpoint (TransportError "connection refused"))
               Example.payload 0
             || attempt_succeeds
                  (Example.env_endpoint (TransportError "connection refused"))
                  Example.payload 1
             || attempt_succeeds
                  (Example.env_endpoint (TransportError "connection refused"))
                  Example.payload 2
          then DeliveryStatus.succeeded else DeliveryStatus.failed)
    /\ 1 <= IntegrationDelivery.attempts d <= max_attempts
    /\ slept w' = slept Example.world ++ new
    /\ clock w' = clock Example.world + sum_list new
    /\ sum_list new <= 3.
Proof.
  apply (X1_delivery_always_settled
           (Example.env_endpoint (TransportError "connection refused")) 20
           Example.payload Example.world).
  reflexivity.
Defined.

(** X2. With an endpoint configured, when attempt [k] (0, 1 or 2) is the
    first one answered with 200, 201 or 202, the new Delivery row is
    succeeded with attempts [k + 1]; the function slept the first [k]
    delays of the schedule 1, 2, 4 and made no further attempt. The error
    recorded for the attempt before stays in [last_error]; it is not
    cleared by the success. *)
Theorem X2_delivery_retry_until_success env run_id payload w k :
  is_set (INTEGRATION_URL env) = true ->
  k < max_attempts ->
  (forall j, j < k -> attempt_succeeds env payload j = false) ->
  attempt_succeeds env payload k = true ->
  exists d w',
    send_to_external_system env run_id payload w = (Ok tt, w')
    /\ integration_deliveries (committed w')
       = integration_deliveries (session w) ++ [d]
    /\ IntegrationDelivery.run_id d = run_id
    /\ IntegrationDelivery.status d = DeliveryStatus.succeeded
    /\ IntegrationDelivery.attempts d = S k
    /\ IntegrationDelivery.last_error d
       = match k with
         | 0 => None
         | S j => Some (attempt_error env payload j)
         end
    /\ slept w' = slept w ++ take k backoff_delays
    /\ clock w' = clock w + sum_list (take k backoff_delays).
Proof.
  intros Hset Hk Hbefore Hok.
  destruct (send_first_success env run_id payload w k Hset Hk Hbefore Hok)
    as (d & w' & ? & ? & ? & ? & ? & ? & ? & ? & _).
  exists d, w'. done.
Qed.

Lemma X2_witness :
  exists d w',
    send_to_external_system Cases.env_second_attempt 20 Example.payload
      Example.world = (Ok tt, w')
    /\ integration_deliveries (committed w')
       = integration_deliveries (session Example.world) ++ [d]
    /\ IntegrationDelivery.run_id d = 20
    /\ IntegrationDelivery.status d = DeliveryStatus.succeeded
    /\ IntegrationDelivery.attempts d = 2
    /\ IntegrationDelivery.last_error d
       = Some (attempt_error Cases.env_second_attempt Example.payload 0)
    /\ slept w' = slept Example.world ++ take 1 backoff_delays
    /\ clock w' = clock Example.world + sum_list (take 1 backoff_delays).
Proof.
  apply (X2_delivery_retry_until_success Cases.env_second_attempt 20
           Example.payload Example.world 1).
  - reflexivity.
  - unfold max_attempts. lia.
  - intros j Hj. replace j with 0 by lia. reflexivity.
  - reflexivity.
Defined.

(** X3. With an endpoint configured, when none of the three attempts is
    answered with 200, 201 or 202 (any other status, other 2xx included,
    or an exception of the request), the new Delivery row is failed with
    attempts 3 and [last_error] is the error of the third attempt; the
    function slept 1 s and 2 s. *)
Theorem X3_delivery_exhausted env run_id payload w :
  is_set (INTEGRATION_URL env) = true ->
  (forall j, j < max_attempts -> attempt_succeeds env payload j = false) ->
  exists d w',
    send_to_external_system env run_id payload w = (Ok tt, w')
    /\ integration_deliveries (committed w')
       = integration_deliveries (session w) ++ [d]
    /\ IntegrationDelivery.run_id d = run_id
    /\ IntegrationDelivery.status d = DeliveryStatus.failed
    /\ IntegrationDelivery.attempts d = max_attempts
    /\ IntegrationDelivery.last_error d = Some (attempt_error env payload 2)
    /\ slept w' = slept w ++ [1; 2]
    /\ clock w' = clock w + 3.
Proof.
  intros Hset Hall.
  destruct (send_exhausted env run_id payload w Hset Hall)
    as (d & w' & ? & ? & ? & ? & ? & ? & ? & ? & _).
  exists d, w'. done.
Qed.

Lemma X3_witness :
  exists d w',
    send_to_external_system Cases.env_never_accepts 20 Example.payload
      Example.world = (Ok tt, w')
    /\ integration_deliveries (committed w')
       = integration_deliveries (session Example.world) ++ [d]
    /\ IntegrationDelivery.run_id d = 20
    /\ IntegrationDelivery.status d = DeliveryStatus.failed
    /\ IntegrationDelivery.attempts d = max_attempts
    /\ IntegrationDelivery.last_error d
       = Some (attempt_error Cases.env_never_accepts Example.payload 2)
    /\ slept w' = slept Example.world ++ [1; 2]
    /\ clock w' = clock Example.world + 3.
Proof.
  apply (X3_delivery_exhausted Cases.env_never_accepts 20 Example.payload
           Example.world).
  - reflexivity.
  - intros [|[|[|j]]] Hj; [reflexivity..|unfold max_attempts in Hj; lia].
Defined.

(** X4. For every environment, [send_to_external_system] returns without
    raising, whatever the endpoint does, and leaves the conversations, the
    messages, the runs, the media rows, the files and the job queue as they
    were. *)
Theorem X4_delivery_touches_only_deliveries env run_id payload w :
  exists w',
    send_to_external_system env run_id payload w = (Ok tt, w')
    /\ conversations (session w') = conversations (session w)
    /\ messages (session w') = messages (session w)
    /\ agent_runs (session w') = agent_runs (session w)
    /\ media (session w') = media (session w)
    /\ files w' = files w
    /\ queue w' = queue w.
Proof.
  destruct (send_to_external_system_frame env run_id payload w)
    as (w' & Hex & Hc & Hm & Hr & Hme & Hf & Hq & _).
  exists w'. done.
Qed.

(** ** The keyword test and the slices *)

Lemma prefix_append p s :
  String.prefix p s = true <-> exists post, s = p +:+ post.
Proof.
  revert s. induction p as [|a p IH]; intros s.
  - destruct s; cbn; split; eauto.
  - destruct s as [|b s]; cbn.
    + split; [done|]. intros [post [=]].
    + destruct (ascii_dec a b) as [->|Hne].
      * rewrite IH. split.
        -- intros [post ->]. by exists post.
        -- intros [post [= ->]]. by exists post.
      * split; [done|]. intros [post [= ? ?]]. done.
Qed.

Lemma contains_occurs pat s :
  contains pat s = true <-> exists pre post, s = pre +:+ pat +:+ post.
Proof.
  induction s as [|c s IH]; cbn [contains].
  - rewrite orb_false_r, prefix_append. split.
    + intros [post ->]. by exists "", post.
    + intros ([|? ?] & post & H); [|done]. by exists post.
  - rewrite orb_true_iff, prefix_append, IH. split.
    + intros [[post ->]|(pre & post & ->)].
      * by exists "", post.
      * by exists (String c pre), post.
    + intros ([|c' pre] & post & H).
      * left. by exists post.
      * right. injection H as -> ->. by exists pre, post.
Qed.

Lemma append_cons c a b : String c a +:+ b = String c (a +:+ b).
Proof. reflexivity. Qed.

Lemma append_assoc a b c : (a +:+ b) +:+ c = a +:+ (b +:+ c).
Proof.
  induction a as [|x a IH]; [done|]. by rewrite !append_cons, IH.
Qed.

Lemma lower_append a b : lower (a +:+ b) = lower a +:+ lower b.
Proof.
  induction a as [|c a IH]; [done|].
  rewrite append_cons. cbn [lower]. by rewrite append_cons, IH.
Qed.

Lemma lower_char_idempotent c : lower_char (lower_char c) = lower_char c.
Proof. destruct c as [[] [] [] [] [] [] [] []]; reflexivity. Qed.

Lemma lower_idempotent s : lower (lower s) = lower s.
Proof.
  induction s as [|c s IH]; cbn; [done|].
  by rewrite lower_char_idempotent, IH.
Qed.

(** X5. [pat in s] holds exactly when [s] is some text, then [pat], then
    some text; so a run asks for a visualization exactly when the
    lower-cased trigger text has "plot:" or "chart:" somewhere in it. *)
Theorem X5_keyword_test_is_substring_search user_text :
  wants_visual user_text = true <->
  exists pre post,
    lower user_text = pre +:+ "plot:" +:+ post
    \/ lower user_text = pre +:+ "chart:" +:+ post.
Proof.
  unfold wants_visual. rewrite orb_true_iff, !contains_occurs. split.
  - intros [(pre & post & H)|(pre & post & H)]; exists pre, post; auto.
  - intros (pre & post & [H|H]); [left|right]; by exists pre, post.
Qed.

(** X6. The keyword test does not depend on where the keyword stands nor
    on letter case: a text that asks for a visualization still does with
    any text before and after it, and a text and its lower-cased form are
    treated alike. *)
Theorem X6_keyword_test_context_and_case user_text :
  wants_visual (lower user_text) = wants_visual user_text
  /\ (wants_visual user_text = true ->
      forall before rest,
        wants_visual (before +:+ user_text +:+ rest) = true).
Proof.
  split.
  - unfold wants_visual. by rewrite lower_idempotent.
  - unfold wants_visual. intros Hv before rest.
    rewrite !lower_append, orb_true_iff, !contains_occurs.
    rewrite orb_true_iff, !contains_occurs in Hv.
    destruct Hv as [(pre & post & ->)|(pre & post & ->)]; [left|right];
      exists (lower before +:+ pre), (post +:+ lower rest);
      by rewrite !append_assoc.
Qed.

(** X7. [s[:n]] is the longest prefix of [s] that has at most [n]
    characters: [s] is the slice followed by the rest, the slice has
    [min n (len s)] characters, and a text of at most [n] characters is
    its own slice. So a response body of at most 200 characters is
    recorded whole in [last_error]. *)
Theorem X7_slice_is_longest_prefix n s :
  (exists rest, s = slice_to n s +:+ rest)
  /\ String.length (slice_to n s) = Nat.min n (String.length s)
  /\ (String.length s <= n -> slice_to n s = s).
Proof.
  unfold slice_to. revert s.
  induction n as [|n IH]; intros [|c s]; cbn [substring String.length Nat.min].
  - split; [by exists ""|done].
  - split; [by exists (String c s)|split; [done|lia]].
  - split; [by exists ""|done].
  - destruct (IH s) as ([rest Hrest] & Hlen & Hfull).
    split; [|split].
    + exists rest. by rewrite append_cons, <- Hrest.
    + by rewrite Hlen.
    + intros Hle. rewrite Hfull; [done|lia].
Qed.

(** ** The conversation context *)

(** X8. The context built for the capability has one turn for every user
    and assistant message, in the order of the messages, and none for a
    system message: a user message gives role "user", an assistant message
    role "model", each with the message's text (the empty text for an
    Image message). *)
Theorem X8_context_skips_system_messages msgs :
  build_context msgs
  = turn_of <$> filter (fun m => is_system m = false) msgs.
Proof.
  induction msgs as [|m msgs IH]; [done|].
  cbn [build_context]. rewrite IH.
  destruct (Message.sender m) eqn:Hs.
  - rewrite filter_cons_True by (unfold is_system; by rewrite Hs).
    rewrite fmap_cons. f_equal. unfold turn_of. by rewrite Hs.
  - rewrite filter_cons_True by (unfold is_system; by rewrite Hs).
    rewrite fmap_cons. f_equal. unfold turn_of. by rewrite Hs.
  - by rewrite filter_cons_False by (unfold is_system; by rewrite Hs).
Qed.

Lemma insert_by_created_at_perm m l :
  insert_by_created_at m l ≡ₚ m :: l.
Proof.
  induction l as [|x l IH]; cbn [insert_by_created_at]; [done|].
  destruct (Message.created_at m <=? Message.created_at x); [done|].
  rewrite IH. apply Permutation_swap.
Qed.

Lemma order_by_created_at_perm l : order_by_created_at l ≡ₚ l.
Proof.
  induction l as [|m l IH]; [done|].
  unfold order_by_created_at in *. cbn [foldr].
  by rewrite insert_by_created_at_perm, IH.
Qed.

Lemma insert_by_created_at_sorted m l :
  StronglySorted created_le l ->
  StronglySorted created_le (insert_by_created_at m l).
Proof.
  induction 1 as [|x l Hl IH Hx]; cbn [insert_by_created_at].
  - repeat constructor.
  - destruct (Message.created_at m <=? Message.created_at x) eqn:Hle.
    + apply Nat.leb_le in Hle. constructor; [by constructor|].
      constructor; [done|].
      eapply Forall_impl; [exact Hx|]. unfold created_le. intros; lia.
    + apply Nat.leb_gt in Hle. constructor; [done|].
      rewrite insert_by_created_at_perm. constructor; [|done].
      unfold created_le. lia.
Qed.

Lemma order_by_created_at_sorted l :
  StronglySorted created_le (order_by_created_at l).
Proof.
  induction l as [|m l IH]; [constructor|].
  unfold order_by_created_at in *. cbn [foldr].
  by apply insert_by_created_at_sorted.
Qed.

(** X9. The messages that [execute_agent_run] loads for a conversation are
    exactly the messages of that conversation, each as often as it is in
    the table, in ascending order of creation time. *)
Theorem X9_conversation_messages_sorted cid d :
  StronglySorted created_le (conversation_messages cid d)
  /\ conversation_messages cid d
     ≡ₚ filter (fun m => Message.conversation_id m = cid) (messages d)
  /\ (forall m, m ∈ conversation_messages cid d
                <-> m ∈ messages d /\ Message.conversation_id m = cid).
Proof.
  unfold conversation_messages. split; [apply order_by_created_at_sorted|].
  split; [apply order_by_created_at_perm|].
  intros m. rewrite order_by_created_at_perm, list_elem_of_filter. tauto.
Qed.

(** ** Polling the messages *)

(** A page: the first [limit] rows of a query in creation order. *)
Lemma page_of_query (P : Message.t -> Prop) query limit :
  Forall P query ->
  StronglySorted created_le (take limit (order_by_created_at query))
  /\ length (take limit (order_by_created_at query)) <= limit
  /\ Forall P (take limit (order_by_created_at query)).
Proof.
  intros HP. split; [|split].
  - pose proof (order_by_created_at_sorted query) as Hs.
    rewrite <- (take_drop limit (order_by_created_at query)) in Hs.
    by apply StronglySorted_app_1_l in Hs.
  - rewrite length_take. lia.
  - apply Forall_take. by rewrite order_by_created_at_perm.
Qed.

(** X10. Polling a conversation of the user, from a fresh session, with
    a limit within 1..500 (100 when none is given): the request returns a
    page and changes nothing but the log. The page is in ascending order
    of creation time, has at most [limit] messages, all of that
    conversation; with [since] every message is strictly newer than it;
    with an [after_id] that names a message every message is strictly
    newer than that message, so the cursor message itself, and any message
    created at the same time, is not in the page. *)
Theorem X10_get_messages_page cid after_id since limit uid w c :
  session w = committed w ->
  first_owned_conversation cid uid (session w) = Some c ->
  1 <= default 100 limit <= 500 ->
  exists page,
    get_messages cid after_id since limit uid w
    = (Ok page,
       add_logs [(INFO, "Retrieved " +:+ str (length page) +:+ " messages")] w)
    /\ StronglySorted created_le page
    /\ length page <= default 100 limit
    /\ Forall (fun m => m ∈ messages (session w)
                        /\ Message.conversation_id m = cid) page
    /\ (forall t, since = Some t ->
        Forall (fun m => t < Message.created_at m) page)
    /\ (forall aid am,
          after_id = Some aid -> first_message aid (session w) = Some am ->
          Forall (fun m => Message.created_at am < Message.created_at m) page).
Proof.
  intros Hfresh Hconv [Hlo Hhi].
  set (P := fun m =>
    (m ∈ messages (session w) /\ Message.conversation_id m = cid)
    /\ (forall t, since = Some t -> t < Message.created_at m)
    /\ (forall aid am,
          after_id = Some aid -> first_message aid (session w) = Some am ->
          Message.created_at am < Message.created_at m)).
  assert (Hgoal : exists query,
    get_messages cid after_id since limit uid w
    = (Ok (take (default 100 limit) (order_by_created_at query)),
       add_logs
         [(INFO, "Retrieved "
                 +:+ str (length (take (default 100 limit)
                                    (order_by_created_at query)))
                 +:+ " messages")] w)
    /\ Forall P query).
  { unfold get_messages.
    apply Nat.leb_le in Hlo as ->. apply Nat.leb_le in Hhi as ->.
    cbn [andb]. unfold try_finally, get_messages_body, close, P.
    destruct w as [[convs msgs runs meds dels] comm obs fls lgs slp clk uu q fe].
    cbn [session committed] in *. subst comm.
    unfold bind at 1, gets at 1. cbn [session]. rewrite Hconv.
    destruct after_id as [aid|]; [|].
    - unfold bind at 1 2 3, gets at 1 2. cbn [session messages].
      destruct (first_message aid _) as [am|] eqn:Ham;
        destruct since as [t|];
        (eexists; split; [reflexivity|]);
        apply Forall_forall; intros m Hm;
        rewrite ?list_elem_of_filter in Hm;
        (split; [tauto|]); (split; [intros ? [= <-]; tauto|]);
        intros ? ? [= <-] Hfound; rewrite ?Hfound in Ham;
        try injection Ham as <-; try done; tauto.
    - unfold bind at 1 2, gets at 1. cbn [session messages].
      destruct since as [t|];
        (eexists; split; [reflexivity|]);
        apply Forall_forall; intros m Hm;
        rewrite ?list_elem_of_filter in Hm;
        (split; [tauto|]); (split; [intros ? [= <-]; tauto|]); done. }
  destruct Hgoal as (query & Hex & HP).
  destruct (page_of_query P query (default 100 limit) HP)
    as (Hsorted & Hlen & Hpage).
  eexists. split; [exact Hex|]. split; [exact Hsorted|]. split; [exact Hlen|].
  unfold P in Hpage. rewrite !Forall_and in Hpage.
  destruct Hpage as (Hin & Hsince & Hafter).
  split; [by apply Forall_and|]. split.
  - intros t Ht. eapply Forall_impl; [exact Hsince|]. cbn. eauto.
  - intros aid am Ha Hm. eapply Forall_impl; [exact Hafter|]. cbn. eauto.
Qed.

Lemma X10_witness :
  exists page,
    get_messages 1 (Some 10) (Some 0) None 7 Example.world
    = (Ok page,
       add_logs [(INFO, "Retrieved " +:+ str (length page) +:+ " messages")]
         Example.world)
    /\ StronglySorted created_le page
    /\ length page <= default 100 None
    /\ Forall (fun m => m ∈ messages (session Example.world)
                        /\ Message.conversation_id m = 1) page
    /\ (forall t, Some 0 = Some t ->
        Forall (fun m => t < Message.created_at m) page)
    /\ (forall aid am,
          Some 10 = Some aid ->
          first_message aid (session Example.world) = Some am ->
          Forall (fun m => Message.created_at am < Message.created_at m) page).
Proof.
  apply (X10_get_messages_page 1 (Some 10) (Some 0) None 7 Example.world
           Example.conversation).
  - reflexivity.
  - reflexivity.
  - cbn. lia.
Defined.

(** X11. Polling without a cursor a conversation that has no more
    messages than the limit returns the whole conversation, the same list
    in the same order as the worker loads for that conversation. *)
Theorem X11_get_messages_whole_conversation cid limit uid w c :
  session w = committed w ->
  first_owned_conversation cid uid (session w) = Some c ->
  1 <= default 100 limit <= 500 ->
  length (conversation_messages cid (session w)) <= default 100 limit ->
  outcome (get_messages cid None None limit uid) w
  = Ok (conversation_messages cid (session w)).
Proof.
  intros Hfresh Hconv [Hlo Hhi] Hlen.
  unfold outcome, get_messages.
  apply Nat.leb_le in Hlo as ->. apply Nat.leb_le in Hhi as ->.
  cbn [andb]. unfold try_finally, get_messages_body, close.
  unfold bind at 1, gets at 1. rewrite Hconv.
  unfold bind at 1 2, gets at 1. cbn.
  fold (conversation_messages cid (session w)). by rewrite take_ge.
Qed.

Lemma X11_witness :
  outcome (get_messages 1 None None (Some 5) 7) Example.world
  = Ok (conversation_messages 1 (session Example.world)).
Proof.
  apply (X11_get_messages_whole_conversation 1 (Some 5) 7 Example.world
           Example.conversation).
  - reflexivity.
  - reflexivity.
  - cbn. lia.
  - vm_compute. lia.
Defined.

(** X12. An [after_id] that names no message is ignored without an error:
    the request does what it does with no [after_id] at all. *)
Theorem X12_get_messages_unknown_cursor cid aid since limit uid w :
  first_message aid (session w) = None ->
  get_messages cid (Some aid) since limit uid w
  = get_messages cid None since limit uid w.
Proof.
  intros Hnone. unfold get_messages.
  destruct ((1 <=? default 100 limit) && (default 100 limit <=? 500));
    [|done].
  assert (Hbody :
    get_messages_body cid (Some aid) since (default 100 limit) uid w
    = get_messages_body cid None since (default 100 limit) uid w).
  { unfold get_messages_body, bind, gets.
    destruct (first_owned_conversation cid uid (session w)); [|done].
    by rewrite Hnone. }
  unfold try_finally. by rewrite Hbody.
Qed.

Lemma X12_witness :
  get_messages 1 (Some 999) (Some 0) None 7 Example.world
  = get_messages 1 None (Some 0) None 7 Example.world.
Proof.
  apply (X12_get_messages_unknown_cursor 1 999 (Some 0) None 7 Example.world).
  reflexivity.
Defined.

(** X13. [get_messages] never writes: for every request, also one that
    is refused, the visible state of the database, the list of states
    made visible, the files and the job queue are as they were. *)
Theorem X13_get_messages_never_writes cid after_id since limit uid w :
  let w' := after (get_messages cid after_id since limit uid) w in
  committed w' = committed w
  /\ observed w' = observed w
  /\ files w' = files w
  /\ queue w' = queue w
  /\ (session w' = session w \/ session w' = committed w).
Proof.
  unfold after, get_messages.
  destruct ((1 <=? default 100 limit) && (default 100 limit <=? 500));
    [|cbn; auto 10].
  unfold try_finally, get_messages_body, bind, gets, close, log, modify, ret, raise.
  destruct (first_owned_conversation cid uid (session w)); [|cbn; auto 10].
  destruct after_id as [aid|]; [destruct (first_message aid (session w))|];
    cbn; auto 10.
Qed.

(** ** The run, stage by stage *)

(** [execute_agent_run] on a run whose trigger message exists is its
    stages one after the other. *)
Lemma execute_agent_run_stages env run_id w h r m :
  first_run run_id (session w) = Some (h, r) ->
  first_message (AgentRun.trigger_message_id r) (session w) = Some m ->
  let text := get_text (Message.content_json m) in
  let ctx := build_context
               (conversation_messages (AgentRun.conversation_id r) (session w)) in
  let w1 := after (begin_run h) w in
  exists body entries mid w3,
    _run_gemini_agent env ctx text w1 = (Ok body, add_logs entries w1)
    /\ (if wants_visual text then visualization env r text else ret None)
         (after (store_reply (AgentRun.conversation_id r) body)
            (add_logs entries w1))
       = (Ok mid, w3)
    /\ execute_agent_run env run_id w
       = match flush_error w3 with
         | Some e => fail_run h (PendingRollbackError e) w3
         | None =>
             match first_conversation (AgentRun.conversation_id r) (session w) with
             | None =>
                 fail_run h "'NoneType' object has no attribute 'user_id'" w3
             | Some c =>
                 finish_run h
                   (after (send_to_external_system env run_id
                             (payload_of c r run_id body (clock w3) mid)) w3)
             end
         end
    /\ flush_error w3 = lost_session env r (session w).
Proof.
  intros Hrun Htrig text ctx w1. subst text ctx w1.
  unfold lost_session. rewrite Htrig.
  unfold execute_agent_run. unfold bind at 1. unfold gets at 1. rewrite Hrun.
  unfold after, begin_run, store_reply, finish_run, fail_run, payload_of.
  destruct w as [[convs msgs runs meds dels] comm obs fls lgs slp clk uu q fe].
  run_prims. cbn [snd].
  unfold first_message in Htrig. cbn [session messages] in Htrig.
  rewrite Htrig.
  match goal with
  | |- context [_run_gemini_agent env ?c ?t ?W] =>
      destruct (_run_gemini_agent_total env c t W)
        as (body & entries & Hg & _)
  end.
  exists body, entries. rewrite Hg. run_prims. cbn [snd].
  match goal with
  | |- context [(if ?b then visualization env r ?t else _) ?W] =>
      destruct (visual_step_spec env b r t W)
        as (mid & wv & Hv & Hc & _ & _ & _ & _ & _ & _ & _ & _ & _ & _ & Hfe)
  end.
  unfold ret in Hv. exists mid, wv. rewrite Hv.
  split; [done|]. split; [done|].
  destruct wv as [[convs' msgs' runs' meds' dels'] comm' obs' fls' lgs' slp' clk' uu' q' fe'].
  cbn in Hc, Hfe. subst convs'.
  split.
  2:{ cbn [flush_error]. rewrite Hfe.
      destruct (wants_visual _); [|done]. by destruct (flush_failure env). }
  clear Hfe. destruct fe' as [e|]; run_prims; cbn [snd]; [done|].
  destruct (snd <$> list_find _ convs) as [c|]; [|done].
  match goal with
  | |- context [send_to_external_system env run_id ?P ?W] =>
      destruct (send_to_external_system_frame env run_id P W)
        as (w2 & -> & _)
  end.
  done.
Qed.


(** ** The chart *)

(** X14. When no step of [generate_chart] raises, it returns the printed
    identifier of a new Media row and leaves exactly that row and its
    file: the row has type "image/png" and the given conversation, and its
    storage path is the path of the file written,
    [MEDIA_DIR/<identifier>.png]. Nothing is committed. *)
Theorem X14_generate_chart_row_matches_file env user_text cid w :
  generate_chart_ok env = true ->
  let media_id := uuids w in
  let w' := after (generate_chart env user_text cid) w in
  outcome (generate_chart env user_text cid) w = Ok (str media_id)
  /\ media (session w')
     = media (session w) ++ [chart_row env cid media_id (clock w)]
  /\ files w' = files w ++ [chart_path env media_id]
  /\ messages (session w') = messages (session w)
  /\ committed w' = committed w
  /\ observed w' = observed w.
Proof.
  intros Hok. cbv zeta. unfold generate_chart_ok, step_ok in Hok.
  unfold outcome, after, generate_chart, try_except, bind, may_raise, flush,
    chart_row, chart_path.
  destruct (faults env os_makedirs); [done|].
  destruct (faults env plt_savefig); [done|].
  destruct (faults env persist_media); [done|].
  cbn -[str]. done.
Qed.

Lemma X14_witness :
  let media_id := uuids Example.world in
  let w' := after (generate_chart Example.env "plot: x" 1) Example.world in
  outcome (generate_chart Example.env "plot: x" 1) Example.world
  = Ok (str media_id)
  /\ media (session w')
     = media (session Example.world)
       ++ [chart_row Example.env 1 media_id (clock Example.world)]
  /\ files w' = files Example.world ++ [chart_path Example.env media_id]
  /\ messages (session w') = messages (session Example.world)
  /\ committed w' = committed Example.world
  /\ observed w' = observed Example.world.
Proof.
  apply (X14_generate_chart_row_matches_file Example.env "plot: x" 1
           Example.world).
  reflexivity.
Defined.

(** X15. When a step of [generate_chart] raises, [generate_chart] raises
    the same exception to its caller, stores no Media row and commits
    nothing; [visualization], its caller in [execute_agent_run], absorbs
    the exception and returns no media identifier. *)
Theorem X15_generate_chart_reraises env user_text agent_run w s e :
  (s = os_makedirs \/ s = plt_savefig \/ s = persist_media) ->
  faults env s = Some e ->
  (forall s', s' <> s -> faults env s' = None) ->
  let cid := AgentRun.conversation_id agent_run in
  outcome (generate_chart env user_text cid) w = Raise e
  /\ media (session (after (generate_chart env user_text cid) w))
     = media (session w)
  /\ committed (after (generate_chart env user_text cid) w) = committed w
  /\ outcome (visualization env agent_run user_text) w = Ok None.
Proof.
  intros Hs He Hothers. cbv zeta.
  unfold outcome, after, visualization, attempt, generate_chart, try_except,
    bind, may_raise, flush.
  destruct Hs as [-> | [-> | ->]].
  - rewrite He. done.
  - rewrite (Hothers os_makedirs) by done. rewrite He. done.
  - rewrite (Hothers os_makedirs), (Hothers plt_savefig) by done.
    rewrite He. done.
Qed.

Lemma X15_witness :
  let env := Example.env_fault plt_savefig in
  let cid := AgentRun.conversation_id Example.run in
  outcome (generate_chart env "plot: x" cid) Example.world = Raise "step failed"
  /\ media (session (after (generate_chart env "plot: x" cid) Example.world))
     = media (session Example.world)
  /\ committed (after (generate_chart env "plot: x" cid) Example.world)
     = committed Example.world
  /\ outcome (visualization env Example.run "plot: x") Example.world = Ok None.
Proof.
  apply (X15_generate_chart_reraises (Example.env_fault plt_savefig)
           "plot: x" Example.run Example.world plt_savefig "step failed").
  - right. left. reflexivity.
  - reflexivity.
  - intros [] Hs; done.
Defined.

(** ** Reading a run and a media file *)

(** X16. [get_run_status] returns a run only to the user who owns the
    run's conversation, and what it returns is the stored row with that
    id; to anyone else and for an unknown id it raises. It never writes. *)
Theorem X16_get_run_status_owner_only run_id uid w :
  let w' := after (get_run_status run_id uid) w in
  (forall r,
     outcome (get_run_status run_id uid) w = Ok r
     <-> exists h c,
           first_run run_id (session w) = Some (h, r)
           /\ first_conversation (AgentRun.conversation_id r) (session w) = Some c
           /\ Conversation.user_id c = uid)
  /\ (first_run run_id (session w) = None ->
      outcome (get_run_status run_id uid) w = Raise "404 Run not found")
  /\ committed w' = committed w
  /\ observed w' = observed w
  /\ files w' = files w
  /\ queue w' = queue w.
Proof.
  cbv zeta.
  unfold outcome, after, get_run_status, try_finally, get_run_status_body,
    bind, gets, close, log, modify, ret, raise.
  destruct (first_run run_id (session w)) as [[h r0]|] eqn:Hrun; cbn.
  2:{ split; [|done]. intros r. split; [done|]. intros (? & ? & [=] & _). }
  destruct (first_conversation (AgentRun.conversation_id r0) (session w))
    as [c|] eqn:Hconv; cbn.
  2:{ split; [|done]. intros r. split; [done|].
      intros (? & ? & [= <- <-] & Hc & _). congruence. }
  destruct (Conversation.user_id c =? uid) eqn:Hu; cbn.
  - apply Nat.eqb_eq in Hu. split; [|done]. intros r. split.
    + intros [= <-]. eauto.
    + intros (? & ? & [= <- <-] & _). done.
  - apply Nat.eqb_neq in Hu. split; [|done]. intros r. split; [done|].
    intros (? & c' & [= <- <-] & Hc & Hu'). congruence.
Qed.

(** X17. [get_media] serves a file only when the media row exists, the
    user owns the row's conversation and the file is on disk; the answer
    then names the row's storage path and media type. In every other case
    it raises. It never writes. *)
Theorem X17_get_media_owner_and_file media_id uid w :
  let w' := after (get_media media_id uid) w in
  (forall resp,
     outcome (get_media media_id uid) w = Ok resp
     <-> exists row c,
           first_media media_id (session w) = Some row
           /\ first_conversation (Media.conversation_id row) (session w) = Some c
           /\ Conversation.user_id c = uid
           /\ Media.storage_path row ∈ files w
           /\ resp = {| f_path := Media.storage_path row;
                        f_media_type := Media.media_type row;
                        f_filename := str media_id +:+ ".png" |})
  /\ committed w' = committed w
  /\ observed w' = observed w
  /\ files w' = files w
  /\ queue w' = queue w.
Proof.
  cbv zeta.
  unfold outcome, after, get_media, try_finally, get_media_body,
    bind, gets, close, log, modify, ret, raise, path_exists.
  destruct (first_media media_id (session w)) as [row0|] eqn:Hrow; cbn -[str].
  2:{ split; [|done]. intros r. split; [done|]. intros (? & ? & [=] & _). }
  destruct (first_conversation (Media.conversation_id row0) (session w))
    as [c|] eqn:Hconv; cbn -[str].
  2:{ split; [|done]. intros r. split; [done|].
      intros (? & ? & [= <-] & Hc & _). congruence. }
  destruct (Conversation.user_id c =? uid) eqn:Hu; cbn -[str].
  2:{ apply Nat.eqb_neq in Hu. split; [|done]. intros r. split; [done|].
      intros (? & c' & [= <-] & Hc & Hu' & _). congruence. }
  apply Nat.eqb_eq in Hu.
  destruct (bool_decide (Media.storage_path row0 ∈ files w)) eqn:Hf; cbn -[str].
  - apply bool_decide_eq_true in Hf. split; [|done]. intros r. split.
    + intros [= <-]. exists row0, c. done.
    + intros (? & ? & [= <-] & _ & _ & _ & ->). done.
  - apply bool_decide_eq_false in Hf. split; [|done]. intros r.
    split; [done|]. intros (? & ? & [= <-] & _ & _ & Hin & _). done.
Qed.

(** ** The whole run, for every environment *)

Lemma send_effect env run_id payload w :
  exists w' ds new,
    send_to_external_system env run_id payload w = (Ok tt, w')
    /\ integration_deliveries (session w')
       = integration_deliveries (session w) ++ ds
    /\ (is_set (INTEGRATION_URL env) = true ->
        exists d, ds = [d] /\ IntegrationDelivery.run_id d = run_id
                  /\ IntegrationDelivery.status d <> DeliveryStatus.pending)
    /\ (is_set (INTEGRATION_URL env) = false -> ds = [])
    /\ slept w' = slept w ++ new
    /\ clock w' = clock w + sum_list new
    /\ sum_list new <= 3.
Proof.
  destruct (is_set (INTEGRATION_URL env)) eqn:Hset.
  2:{ unfold send_to_external_system. rewrite Hset. cbn [negb].
      eexists _, [], []. split; [reflexivity|]. cbn.
      rewrite !app_nil_r. split_and!; try done; lia. }
  assert (Hcases :
    (exists k, k < max_attempts
               /\ (forall j, j < k -> attempt_succeeds env payload j = false)
               /\ attempt_succeeds env payload k = true)
    \/ (forall j, j < max_attempts -> attempt_succeeds env payload j = false)).
  { unfold max_attempts.
    destruct (attempt_succeeds env payload 0) eqn:H0;
      [left; exists 0; split_and!; [lia|intros; lia|done]|].
    destruct (attempt_succeeds env payload 1) eqn:H1;
      [left; exists 1; split_and!;
         [lia|intros j Hj; by replace j with 0 by lia|done]|].
    destruct (attempt_succeeds env payload 2) eqn:H2;
      [left; exists 2; split_and!;
         [lia|intros [|[|j]] Hj; [done|done|lia]|done]|].
    right. intros [|[|[|j]]] Hj; [done..|lia]. }
  destruct Hcases as [(k & Hk & Hbefore & Hok)|Hall].
  - destruct (send_first_success env run_id payload w k Hset Hk Hbefore Hok)
      as (d & w' & Hex & Hd & Hrid & Hst & _ & _ & Hsl & Hck & Hsess).
    exists w', [d], (take k backoff_delays).
    split; [done|]. rewrite Hsess, Hd.
    split; [done|]. split.
    { intros _. exists d. split; [done|]. split; [done|]. by rewrite Hst. }
    split; [done|]. split; [done|]. split; [done|].
    unfold max_attempts in Hk.
    destruct k as [|[|[|k]]]; cbn; lia.
  - destruct (send_exhausted env run_id payload w Hset Hall)
      as (d & w' & Hex & Hd & Hrid & Hst & _ & _ & Hsl & Hck & Hsess).
    exists w', [d], [1; 2].
    split; [done|]. rewrite Hsess, Hd.
    split; [done|]. split.
    { intros _. exists d. split; [done|]. split; [done|]. by rewrite Hst. }
    split; [done|]. split; [done|]. split; [done|]. cbn. lia.
Qed.

(** What the visualization step leaves alone. *)
Lemma visual_step_quiet env (b : bool) agent_run text w :
  exists res w',
    (if b then visualization env agent_run text else ret None) w = (Ok res, w')
    /\ slept w' = slept w
    /\ queue w' = queue w
    /\ integration_deliveries (session w') = integration_deliveries (session w)
    /\ (exists new, messages (session w') = messages (session w) ++ new
                    /\ length new <= 1
                    /\ Forall (fun x => Message.sender x = Sender.assistant) new)
    /\ (exists new, media (session w') = media (session w) ++ new
                    /\ length new <= 1)
    /\ res = (if b && generate_chart_ok env
              then Some (str (uuids w)) else None).
Proof.
  destruct b; cbn [andb].
  2:{ exists None, w. split; [done|]. split_and!; try done;
        exists []; rewrite app_nil_r; split_and!; cbn; try done; lia. }
  unfold generate_chart_ok, step_ok.
  unfold visualization, generate_chart, attempt, try_except, bind, may_raise, flush.
  destruct (faults env os_makedirs); cbn -[str].
  { eexists _, _. split; [reflexivity|]. cbn. split_and!; try done;
      exists []; rewrite app_nil_r; split_and!; cbn; try done; lia. }
  destruct (faults env plt_savefig); cbn -[str].
  { eexists _, _. split; [reflexivity|]. cbn. split_and!; try done;
      exists []; rewrite app_nil_r; split_and!; cbn; try done; lia. }
  destruct (faults env persist_media); cbn -[str].
  { eexists _, _. split; [reflexivity|]. cbn. split_and!; try done;
      exists []; rewrite app_nil_r; split_and!; cbn; try done; lia. }
  rewrite truthy_str.
  destruct (faults env persist_image); cbn -[str].
  { eexists _, _. split; [reflexivity|]. cbn -[str]. split_and!; try done.
    - exists []. rewrite app_nil_r. split_and!; cbn; try done; lia.
    - eexists [_]. split; [reflexivity|]. cbn; lia. }
  eexists _, _. split; [reflexivity|]. cbn -[str]. split_and!; try done.
  - eexists [_]. split; [reflexivity|]. split; [cbn; lia|].
    by repeat constructor.
  - eexists [_]. split; [reflexivity|]. cbn; lia.
Qed.

(** A run whose trigger message is missing. *)
Lemma execute_agent_run_no_trigger env run_id w h r :
  first_run run_id (session w) = Some (h, r) ->
  first_message (AgentRun.trigger_message_id r) (session w) = None ->
  execute_agent_run env run_id w
  = fail_run h "'NoneType' object has no attribute 'content_json'"
      (after (begin_run h) w).
Proof.
  intros Hrun Htrig.
  unfold execute_agent_run. unfold bind at 1. unfold gets at 1. rewrite Hrun.
  unfold after, begin_run, fail_run.
  destruct w as [[convs msgs runs meds dels] comm obs fls lgs slp clk uu q fe].
  run_prims. cbn [snd].
  unfold first_message in Htrig. cbn [session messages] in Htrig.
  by rewrite Htrig.
Qed.

Ltac run_prims_in H :=
  lazy beta iota zeta delta
    [bind gets ret raise modify utcnow uuid4 log commit update_run
     add_message try_except add_logs after begin_run store_reply finish_run
     fail_run snd
     with_session with_messages with_agent_runs with_media with_deliveries
     session committed observed files logs slept clock uuids queue
     flush_error assert_active
     conversations messages agent_runs media integration_deliveries] in H.

(** What one execution adds, whatever the run and the environment. *)
Lemma execute_agent_run_effect env run_id w :
  exists res w' new_messages new_media new_deliveries new_sleeps,
    execute_agent_run env run_id w = (res, w')
    /\ conversations (session w') = conversations (session w)
    /\ messages (session w') = messages (session w) ++ new_messages
    /\ length new_messages <= 2
    /\ Forall (fun x => Message.sender x = Sender.assistant) new_messages
    /\ media (session w') = media (session w) ++ new_media
    /\ length new_media <= 1
    /\ integration_deliveries (session w')
       = integration_deliveries (session w) ++ new_deliveries
    /\ length new_deliveries <= 1
    /\ (is_set (INTEGRATION_URL env) = false -> new_deliveries = [])
    /\ slept w' = slept w ++ new_sleeps
    /\ clock w' = clock w + sum_list new_sleeps
    /\ sum_list new_sleeps <= 3
    /\ queue w' = queue w.
Proof.
  destruct (first_run run_id (session w)) as [[h r]|] eqn:Hrun.
  2:{ exists (Ok tt), (add_logs [(ERROR, "Agent run not found")] w), [], [], [], [].
      split.
      { unfold execute_agent_run, bind, gets. by rewrite Hrun. }
      cbn. rewrite !app_nil_r. split_and!; try done; lia. }
  destruct (first_message (AgentRun.trigger_message_id r) (session w))
    as [m|] eqn:Htrig.
  2:{ rewrite (execute_agent_run_no_trigger env run_id w h r Hrun Htrig).
      eexists _, _, [], [], [], []. split; [reflexivity|].
      unfold fail_run, begin_run, after.
      destruct w as [[convs msgs runs meds dels] comm obs fls lgs slp clk uu q fe].
      cbn. rewrite !app_nil_r. split_and!; try done; lia. }
  destruct (execute_agent_run_stages env run_id w h r m Hrun Htrig)
    as (body & entries & mid & w3 & _ & Hv & -> & _).
  destruct (visual_step_quiet env
              (wants_visual (get_text (Message.content_json m))) r
              (get_text (Message.content_json m))
              (after (store_reply (AgentRun.conversation_id r) body)
                 (add_logs entries (after (begin_run h) w))))
    as (mid' & w3' & Hv' & Hsl & Hq & Hdel & (nm & Hmsg & Hnm & Hsender)
          & (nme & Hmed & Hnme) & _).
  destruct (visual_step_spec env
              (wants_visual (get_text (Message.content_json m))) r
              (get_text (Message.content_json m))
              (after (store_reply (AgentRun.conversation_id r) body)
                 (add_logs entries (after (begin_run h) w))))
    as (mid'' & w3'' & Hv'' & Hconv & _ & _ & _ & _ & Hck & _).
  rewrite Hv in Hv', Hv''.
  injection Hv' as <- <-. injection Hv'' as <- <-.
  destruct w as [[convs msgs runs meds dels] comm obs fls lgs slp clk uu q fe].
  run_prims_in Hsl. run_prims_in Hq. run_prims_in Hdel. run_prims_in Hmsg.
  run_prims_in Hmed. run_prims_in Hconv. run_prims_in Hck.
  cbn [session conversations messages media integration_deliveries slept
       clock queue].
  destruct w3 as [[convs3 msgs3 runs3 meds3 dels3] comm3 obs3 fls3 lgs3 slp3 clk3 uu3 q3 fe3].
  cbn in Hsl, Hq, Hdel, Hmsg, Hmed, Hconv, Hck. subst.
  cbn [flush_error]. destruct fe3 as [e3|].
  { eexists _, _, (_ :: nm), nme, [], []. split; [reflexivity|]. cbn.
    rewrite <- !app_assoc, !app_nil_r. cbn.
    split_and!; try done; try lia; by constructor. }
  destruct (first_conversation (AgentRun.conversation_id r) _) as [c|].
  - unfold after.
    match goal with
    | |- context [send_to_external_system env run_id ?P ?W] =>
        destruct (send_effect env run_id P W)
          as (w4 & ds & nsl & Hsend & Hds & Hset & Hunset & Hsl4 & Hck4 & Hsum);
        destruct (send_to_external_system_frame env run_id P W)
          as (w4' & Hsend' & Hc4 & Hm4 & _ & Hme4 & _ & Hq4 & _)
    end.
    rewrite Hsend in Hsend'. injection Hsend' as <-.
    rewrite Hsend. cbn [snd].
    destruct w4 as [[convs4 msgs4 runs4 meds4 dels4] comm4 obs4 fls4 lgs4 slp4 clk4 uu4 q4 fe4].
    cbn in Hds, Hsl4, Hck4, Hc4, Hm4, Hme4, Hq4. subst.
    eexists _, _, (_ :: nm), nme, ds, nsl. split; [reflexivity|]. cbn.
    rewrite <- !app_assoc. cbn.
    split_and!; try done; try lia; try (by constructor).
    destruct (is_set (INTEGRATION_URL env)).
    + destruct (Hset eq_refl) as (d & -> & _). cbn. lia.
    + rewrite (Hunset eq_refl). cbn. lia.
  - eexists _, _, (_ :: nm), nme, [], []. split; [reflexivity|]. cbn.
    rewrite <- !app_assoc, !app_nil_r. cbn.
    split_and!; try done; try lia; by constructor.
Qed.

(** X18. For every run id, world and environment, one execution only
    appends to the messages and the media rows: the rows that were there
    stay as they were, in place; at most two messages are added, all from
    the assistant, and at most one media row. The conversations and the
    job queue are not changed, so a run is never enqueued again. *)
Theorem X18_execution_only_appends env run_id w :
  let w' := after (execute_agent_run env run_id) w in
  exists new_messages new_media,
    messages (session w') = messages (session w) ++ new_messages
    /\ length new_messages <= 2
    /\ Forall (fun x => Message.sender x = Sender.assistant) new_messages
    /\ media (session w') = media (session w) ++ new_media
    /\ length new_media <= 1
    /\ conversations (session w') = conversations (session w)
    /\ queue w' = queue w.
Proof.
  destruct (execute_agent_run_effect env run_id w)
    as (res & w' & nm & nme & ds & ns & Hex & Hc & Hm & Hnm & Hs & Hme & Hnme
          & _ & _ & _ & _ & _ & _ & Hq).
  cbv zeta. unfold after. rewrite Hex. cbn [snd]. exists nm, nme. done.
Qed.

(** X19. For every run id, world and environment, one execution adds at
    most one Delivery row and leaves the earlier rows as they were; with
    no integration endpoint configured (not set, or the empty string) it
    adds none. *)
Theorem X19_execution_adds_at_most_one_delivery env run_id w :
  let w' := after (execute_agent_run env run_id) w in
  exists new_deliveries,
    integration_deliveries (session w')
    = integration_deliveries (session w) ++ new_deliveries
    /\ length new_deliveries <= 1
    /\ (is_set (INTEGRATION_URL env) = false -> new_deliveries = []).
Proof.
  destruct (execute_agent_run_effect env run_id w)
    as (res & w' & nm & nme & ds & ns & Hex & _ & _ & _ & _ & _ & _
          & Hd & Hnd & Hunset & _).
  cbv zeta. unfold after. rewrite Hex. cbn [snd]. exists ds. done.
Qed.

(** X20. For every run id, world and environment, one execution sleeps
    3 seconds at most in all, and the clock of the pipeline moves by what
    was slept. *)
Theorem X20_execution_sleeps_at_most_3s env run_id w :
  let w' := after (execute_agent_run env run_id) w in
  exists new_sleeps,
    slept w' = slept w ++ new_sleeps
    /\ clock w' = clock w + sum_list new_sleeps
    /\ sum_list new_sleeps <= 3.
Proof.
  destruct (execute_agent_run_effect env run_id w)
    as (res & w' & nm & nme & ds & ns & Hex & _ & _ & _ & _ & _ & _
          & _ & _ & _ & Hsl & Hck & Hsum & _).
  cbv zeta. unfold after. rewrite Hex. cbn [snd]. exists ns. done.
Qed.



(** ** The reply and the artifact, row by row *)

Lemma visualization_success env agent_run text w :
  artifact_ok env = true ->
  let cid := AgentRun.conversation_id agent_run in
  exists w',
    visualization env agent_run text w = (Ok (Some (str (uuids w))), w')
    /\ conversations (session w') = conversations (session w)
    /\ media (session w')
       = media (session w) ++ [chart_row env cid (uuids w) (clock w)]
    /\ files w' = files w ++ [chart_path env (uuids w)]
    /\ messages (session w')
       = messages (session w)
         ++ [image_row cid (uuids w) (S (uuids w)) (clock w)].
Proof.
  unfold artifact_ok, generate_chart_ok, step_ok. intros Hok. cbv zeta.
  unfold visualization, generate_chart, attempt, try_except, bind, may_raise, flush,
    chart_row, chart_path, image_row.
  destruct (faults env os_makedirs); [done|].
  destruct (faults env plt_savefig); [done|].
  destruct (faults env persist_media); [done|].
  destruct (faults env persist_image); [done|].
  cbn -[str]. rewrite truthy_str. cbn -[str].
  eexists. split; [reflexivity|]. done.
Qed.

(** The reply that one execution stores, and what follows it. *)
Lemma execute_agent_run_reply env run_id w h r m :
  first_run run_id (session w) = Some (h, r) ->
  first_message (AgentRun.trigger_message_id r) (session w) = Some m ->
  lost_session env r (session w) = None ->
  let text := get_text (Message.content_json m) in
  let cid := AgentRun.conversation_id r in
  let ctx := build_context (conversation_messages cid (session w)) in
  exists body entries extra res w',
    _run_gemini_agent env ctx text (after (begin_run h) w)
    = (Ok body, add_logs entries (after (begin_run h) w))
    /\ execute_agent_run env run_id w = (res, w')
    /\ messages (session w')
       = messages (session w) ++ reply_row cid body (uuids w) (clock w) :: extra
    /\ (is_Some (first_conversation cid (session w)) -> res = Ok tt)
    /\ committed w' = session w'
    /\ conversations (session w') = conversations (session w)
    /\ (wants_visual text = true -> artifact_ok env = true ->
        extra = [image_row cid (S (uuids w)) (S (S (uuids w))) (clock w)]
        /\ media (session w')
           = media (session w) ++ [chart_row env cid (S (uuids w)) (clock w)]
        /\ files w' = files w ++ [chart_path env (S (uuids w))]).
Proof.
  intros Hrun Htrig Hlost. cbv zeta.
  destruct (execute_agent_run_stages env run_id w h r m Hrun Htrig)
    as (body & entries & mid & w3 & Hg & Hv & Hex & Hfe3).
  rewrite Hlost in Hfe3. rewrite Hfe3 in Hex.
  exists body, entries.
  set (W2 := after (store_reply (AgentRun.conversation_id r) body)
               (add_logs entries (after (begin_run h) w))) in *.
  assert (Hw3 : exists extra,
    messages (session w3) = messages (session W2) ++ extra
    /\ conversations (session w3) = conversations (session W2)
    /\ (wants_visual (get_text (Message.content_json m)) = true ->
        artifact_ok env = true ->
        extra = [image_row (AgentRun.conversation_id r) (uuids W2)
                   (S (uuids W2)) (clock W2)]
        /\ media (session w3)
           = media (session W2)
             ++ [chart_row env (AgentRun.conversation_id r) (uuids W2) (clock W2)]
        /\ files w3 = files W2 ++ [chart_path env (uuids W2)])).
  { destruct (visual_step_quiet env
                (wants_visual (get_text (Message.content_json m))) r
                (get_text (Message.content_json m)) W2)
      as (mid' & w3' & Hv' & _ & _ & _ & (nm & Hmsg & _) & _).
    destruct (visual_step_spec env
                (wants_visual (get_text (Message.content_json m))) r
                (get_text (Message.content_json m)) W2)
      as (mid'' & w3'' & Hv'' & Hconv & _).
    rewrite Hv in Hv', Hv''. injection Hv' as <- <-. injection Hv'' as <- <-.
    exists nm. split; [done|]. split; [done|].
    intros Hviz Hart. rewrite Hviz in Hv.
    destruct (visualization_success env r
                (get_text (Message.content_json m)) W2 Hart)
      as (w3' & Hv' & _ & Hmed & Hfil & Hmsg').
    rewrite Hv in Hv'. injection Hv' as _ <-.
    rewrite Hmsg in Hmsg'. apply app_inv_head in Hmsg'. done. }
  destruct Hw3 as (extra & Hmsg & Hconv & Hvis).
  exists extra, (fst (execute_agent_run env run_id w)),
    (snd (execute_agent_run env run_id w)).
  subst W2. split; [exact Hg|].
  split; [by destruct (execute_agent_run env run_id w)|].
  rewrite Hex. clear Hex Hg Hv.
  destruct (first_conversation (AgentRun.conversation_id r) (session w))
    as [c|].
  all: destruct w as [[convs msgs runs meds dels] comm obs fls lgs slp clk uu q fe].
  all: run_prims_in Hmsg; run_prims_in Hconv; run_prims_in Hvis.
  all: cbn [session conversations messages media files uuids clock].
  all: destruct w3 as [[convs3 msgs3 runs3 meds3 dels3] comm3 obs3 fls3 lgs3 slp3 clk3 uu3 q3 fe3].
  all: cbn [session conversations messages media files] in Hmsg, Hconv, Hvis.
  all: cbn [flush_error] in Hfe3.
  all: subst convs3 msgs3 fe3.
  - unfold after.
    match goal with
    | |- context [send_to_external_system env run_id ?P ?W] =>
        destruct (send_to_external_system_frame env run_id P W)
          as (w4 & Hsend & Hc4 & Hm4 & _ & Hme4 & Hf4 & _)
    end.
    rewrite Hsend. cbn [snd].
    destruct w4 as [[convs4 msgs4 runs4 meds4 dels4] comm4 obs4 fls4 lgs4 slp4 clk4 uu4 q4 fe4].
    cbn in Hc4, Hm4, Hme4, Hf4. subst.
    cbn. rewrite <- app_assoc. split_and!; try done.
  - cbn. rewrite <- app_assoc. split_and!; done.
Qed.



(** ** From the request to the answer *)

Lemma list_find_fresh_last {A} (P : A -> Prop) `{!forall x, Decision (P x)}
    (l : list A) (x : A) :
  Forall (fun y => ~ P y) l -> P x ->
  list_find P (l ++ [x]) = Some (length l, x).
Proof.
  intros Hl Hx. apply list_find_Some. split_and!.
  - by rewrite lookup_app_r, Nat.sub_diag by lia.
  - done.
  - intros j y Hj Hlt. rewrite lookup_app_l in Hj by lia.
    eapply Forall_lookup_1 in Hl; [|exact Hj]. done.
Qed.


(** What [run_agent_job] makes of [execute_agent_run]. *)
Lemma run_agent_job_unfold env run_id w :
  run_agent_job env run_id w
  = match execute_agent_run env run_id (add_logs [(INFO, "Agent job started")] w) with
    | (Ok _, w') =>
        (Ok tt, add_logs [(INFO, "Agent job completed")] (after close w'))
    | (Raise e, w') => (Raise e, after close w')
    end.
Proof.
  unfold run_agent_job, try_finally, bind at 1 2. unfold log at 1, modify at 1.
  fold (add_logs [(INFO, "Agent job started")] w).
  destruct (execute_agent_run env run_id _) as [[[]|e] w']; reflexivity.
Qed.




Lemma artifact_ok_no_flush_failure env :
  artifact_ok env = true -> flush_failure env = None.
Proof.
  unfold artifact_ok, generate_chart_ok, flush_failure, step_ok.
  destruct (faults env os_makedirs); [done|].
  destruct (faults env plt_savefig); [done|].
  destruct (faults env persist_media); [done|].
  by destruct (faults env persist_image).
Qed.

Lemma get_media_serves media_id uid w row c :
  first_media media_id (session w) = Some row ->
  first_conversation (Media.conversation_id row) (session w) = Some c ->
  Conversation.user_id c = uid ->
  Media.storage_path row ∈ files w ->
  outcome (get_media media_id uid) w
  = Ok {| f_path := Media.storage_path row;
          f_media_type := Media.media_type row;
          f_filename := str media_id +:+ ".png" |}.
Proof.
  intros Hrow Hconv Hu Hin.
  unfold outcome, get_media, try_finally, get_media_body, bind, gets,
    close, log, modify, ret, raise, path_exists.
  rewrite Hrow, Hconv. apply Nat.eqb_eq in Hu. rewrite Hu. cbn [negb].
  rewrite bool_decide_eq_true_2 by done. reflexivity.
Qed.

(** X24. The image of a run can be fetched. For a run whose trigger text
    asks for a visualization, when no step of artifact generation raises
    and the identifiers of the world are fresh: after [run_agent_job] the
    last message of the conversation is the Image message, and
    [get_media], called by the owner of the conversation with the
    identifier in that message's url, serves the chart file as
    "image/png". *)
Theorem X24_generated_image_can_be_fetched env run_id uid w h r m c :
  uuids_fresh w ->
  first_run run_id (session w) = Some (h, r) ->
  first_message (AgentRun.trigger_message_id r) (session w) = Some m ->
  first_conversation (AgentRun.conversation_id r) (session w) = Some c ->
  Conversation.user_id c = uid ->
  wants_visual (get_text (Message.content_json m)) = true ->
  artifact_ok env = true ->
  let w' := after (run_agent_job env run_id) w in
  exists media_id image,
    last (messages (committed w')) = Some image
    /\ Message.content_json image
       = Image ("/v1/media/" +:+ str media_id) "Generated visualization"
    /\ outcome (get_media media_id uid) w'
       = Ok {| f_path := chart_path env media_id;
               f_media_type := "image/png";
               f_filename := str media_id +:+ ".png" |}.
Proof.
  intros (_ & _ & Hfmed) Hrun Htrig Hconv Hu Hviz Hart. cbv zeta.
  set (W := add_logs [(INFO, "Agent job started")] w).
  assert (Hlost : lost_session env r (session W) = None).
  { apply (lost_session_none env r (session W) m Htrig).
    intros _. by apply artifact_ok_no_flush_failure. }
  destruct (execute_agent_run_reply env run_id W h r m Hrun Htrig Hlost)
    as (body & entries & extra & res & w' & _ & Hex & Hmsg & Hok & Hcomm
          & Hconvs & Hvis).
  destruct (Hvis Hviz Hart) as (-> & Hmed & Hfil).
  rewrite (Hok ltac:(by eexists)) in Hex.
  unfold after. rewrite run_agent_job_unfold. fold W. rewrite Hex.
  cbn [snd]. unfold after, close, modify. cbn [snd].
  exists (S (uuids w)), (image_row (AgentRun.conversation_id r) (S (uuids w))
                           (S (S (uuids w))) (clock w)).
  cbn [committed add_logs]. rewrite Hcomm, Hmsg.
  split.
  { change (reply_row ?a ?b ?c ?d :: ?l) with ([reply_row a b c d] ++ l).
    by rewrite app_assoc, last_snoc. }
  split; [done|].
  apply (get_media_serves _ _ _
           (chart_row env (AgentRun.conversation_id r) (S (uuids w)) (clock w)) c).
  - cbn [session add_logs]. unfold first_media. rewrite Hmed.
    rewrite list_find_fresh_last; [done| |done].
    eapply Forall_impl; [exact Hfmed|]. cbn. intros; lia.
  - cbn [session add_logs Media.conversation_id chart_row].
    unfold first_conversation in *. by rewrite Hconvs.
  - done.
  - cbn [files add_logs Media.storage_path chart_row]. rewrite Hfil.
    apply elem_of_app. right. by apply list_elem_of_singleton.
Qed.

Lemma X24_witness :
  let w' := after (run_agent_job Example.env 20) Example.world in
  exists media_id image,
    last (messages (committed w')) = Some image
    /\ Message.content_json image
       = Image ("/v1/media/" +:+ str media_id) "Generated visualization"
    /\ outcome (get_media media_id 7) w'
       = Ok {| f_path := chart_path Example.env media_id;
               f_media_type := "image/png";
               f_filename := str media_id +:+ ".png" |}.
Proof.
  apply (X24_generated_image_can_be_fetched Example.env 20 7 Example.world
           0 Example.run Example.trigger Example.conversation);
    try reflexivity.
  unfold uuids_fresh. cbn. split_and!; repeat constructor; cbn; lia.
Defined.

(** X25. Posting to a conversation that does not exist, or that belongs
    to another user, is refused with 404 and leaves the world exactly as it
    was: no row, no identifier drawn, no job, no log entry. *)
Theorem X25_post_message_foreign_conversation env cid text md uid w :
  session w = committed w ->
  first_owned_conversation cid uid (session w) = None ->
  post_message env cid text md uid w
  = (Raise "404 Conversation not found", w).
Proof.
  intros Hfresh Hnone.
  unfold post_message, try_finally, post_message_body, bind, gets, close,
    modify, raise.
  rewrite Hnone. destruct w. cbn in *. by subst.
Qed.

Lemma X25_witness :
  post_message Example.env 1 "hello" None 8 Example.world
  = (Raise "404 Conversation not found", Example.world).
Proof.
  apply (X25_post_message_foreign_conversation Example.env 1 "hello" None 8
           Example.world); reflexivity.
Defined.

(** ** What the endpoint is asked *)

Lemma bind_ext {A B} (m1 m2 : M A) (k1 k2 : A -> M B) w :
  m1 w = m2 w ->
  (forall a w', k1 a w' = k2 a w') ->
  bind m1 k1 w = bind m2 k2 w.
Proof.
  intros Hm Hk. unfold bind. rewrite Hm.
  destruct (m2 w) as [[a|e] w']; [apply Hk|done].
Qed.

Lemma delivery_loop_agree env1 env2 h url payload attempts w :
  (forall k, http_post env1 k url payload = http_post env2 k url payload) ->
  delivery_loop env1 h url payload attempts w
  = delivery_loop env2 h url payload attempts w.
Proof.
  intros Hagree. revert w.
  induction attempts as [|attempt rest IH]; intros w; [done|].
  cbn [delivery_loop].
  apply bind_ext; [done|]. intros _ w1.
  apply bind_ext; [done|]. intros _ w2.
  apply bind_ext.
  { unfold delivery_attempt. by rewrite Hagree. }
  intros [] w3; [done|].
  apply bind_ext; [done|]. intros _ w4. apply IH.
Qed.

Lemma send_agree env post' run_id payload w :
  (forall k, post' k (default "" (INTEGRATION_URL env)) payload
             = http_post env k (default "" (INTEGRATION_URL env)) payload) ->
  send_to_external_system (with_integration (INTEGRATION_URL env) post' env)
    run_id payload w
  = send_to_external_system env run_id payload w.
Proof.
  intros Hagree. unfold send_to_external_system.
  cbn [INTEGRATION_URL with_integration].
  destruct (is_set (INTEGRATION_URL env)); [|done]. cbn [negb].
  do 6 (apply bind_ext; [done|]; intros ? ?).
  apply bind_ext; [|done].
  by apply delivery_loop_agree.
Qed.

(** X26. A run asks the endpoint about one payload only: the printed ids
    of the conversation's user, the conversation and the run, the reply
    text, the time, and [has_visualization], which is true exactly when
    the trigger text asked for a visualization and no step of artifact
    generation raised. Replacing the endpoint by one that answers alike
    on that payload does not change what the run does. When a flush of the
    artifact side-channel fails, the endpoint is not asked at all: the run
    does the same with every endpoint. *)
Theorem X26_endpoint_is_asked_one_payload env post' run_id w h r m c :
  first_run run_id (session w) = Some (h, r) ->
  first_message (AgentRun.trigger_message_id r) (session w) = Some m ->
  first_conversation (AgentRun.conversation_id r) (session w) = Some c ->
  let text := get_text (Message.content_json m) in
  let ctx := build_context
               (conversation_messages (AgentRun.conversation_id r) (session w)) in
  exists body,
    outcome (_run_gemini_agent env ctx text) (after (begin_run h) w) = Ok body
    /\ (let payload :=
          payload_of c r run_id body (clock w)
            (if wants_visual text && artifact_ok env
             then Some (str (S (uuids w))) else None) in
        (forall k url, post' k url payload = http_post env k url payload) ->
        execute_agent_run (with_integration (INTEGRATION_URL env) post' env)
          run_id w
        = execute_agent_run env run_id w)
    /\ (lost_session env r (session w) <> None ->
        forall url post,
          execute_agent_run (with_integration url post env) run_id w
          = execute_agent_run env run_id w).
Proof.
  intros Hrun Htrig Hconv. cbv zeta.
  destruct (execute_agent_run_stages env run_id w h r m Hrun Htrig)
    as (body & entries & mid & w3 & Hg & Hv & Hex & Hfe).
  rewrite Hconv in Hex.
  exists body. split; [unfold outcome; by rewrite Hg|].
  assert (Hother : forall url post,
    execute_agent_run (with_integration url post env) run_id w
    = match flush_error w3 with
      | Some e => fail_run h (PendingRollbackError e) w3
      | None =>
          finish_run h
            (after (send_to_external_system (with_integration url post env)
                      run_id (payload_of c r run_id body (clock w3) mid)) w3)
      end).
  { intros url post.
    destruct (execute_agent_run_stages (with_integration url post env)
                run_id w h r m Hrun Htrig)
      as (body' & entries' & mid' & w3' & Hg' & Hv' & Hex' & _).
    rewrite Hconv in Hex'.
    change (_run_gemini_agent (with_integration url post env))
      with (_run_gemini_agent env) in Hg'.
    change (visualization (with_integration url post env))
      with (visualization env) in Hv'.
    rewrite Hg in Hg'. injection Hg' as <- Hw.
    apply app_inv_head in Hw. subst entries'.
    rewrite Hv in Hv'. injection Hv' as <- <-. exact Hex'. }
  split.
  2:{ intros Hlost url post. rewrite Hother, Hex.
      rewrite Hfe. by destruct (lost_session env r (session w)). }
  intros Hagree. rewrite Hother, Hex.
  destruct (flush_error w3) as [e|] eqn:Hact; [done|].
  set (W2 := after (store_reply (AgentRun.conversation_id r) body)
               (add_logs entries (after (begin_run h) w))) in *.
  destruct (visual_step_quiet env
              (wants_visual (get_text (Message.content_json m))) r
              (get_text (Message.content_json m)) W2)
    as (mid1 & w31 & Hv1 & _ & _ & _ & _ & _ & Hmid).
  destruct (visual_step_spec env
              (wants_visual (get_text (Message.content_json m))) r
              (get_text (Message.content_json m)) W2)
    as (mid2 & w32 & Hv2 & _ & _ & _ & _ & _ & Hck & _).
  rewrite Hv in Hv1, Hv2. injection Hv1 as <- <-. injection Hv2 as <- <-.
  assert (HuW : uuids W2 = S (uuids w)) by (by destruct w).
  assert (HcW : clock W2 = clock w) by (by destruct w).
  rewrite HuW in Hmid. rewrite HcW in Hck. rewrite Hck.
  assert (Hsame : mid
                  = (if wants_visual (get_text (Message.content_json m))
                        && artifact_ok env
                     then Some (str (S (uuids w))) else None)).
  { rewrite Hmid. symmetry in Hfe. unfold lost_session in Hfe.
    rewrite Htrig in Hfe.
    destruct (wants_visual (get_text (Message.content_json m))); [|done].
    cbn [andb]. unfold flush_failure, artifact_ok, generate_chart_ok, step_ok in *.
    destruct (faults env os_makedirs); [done|].
    destruct (faults env plt_savefig); [done|].
    destruct (faults env persist_media); [done|].
    cbn in Hfe. by rewrite Hfe. }
  rewrite Hsame in *. unfold after.
  rewrite send_agree; [done|]. intros k. apply Hagree.
Qed.

Lemma X26_witness :
  let env := Example.env_endpoint (Response 200 "ok") in
  let post' := fun (k : nat) (url : string) (p : Payload) =>
    if p_has_visualization p then Response 200 "ok"
    else TransportError "never asked" in
  execute_agent_run (with_integration (INTEGRATION_URL env) post' env)
    20 Example.world
  = execute_agent_run env 20 Example.world.
Proof.
  intros env post'.
  destruct (X26_endpoint_is_asked_one_payload env post' 20 Example.world 0
              Example.run Example.trigger Example.conversation
              eq_refl eq_refl eq_refl) as (body & Hbody & Hsame & _).
  apply Hsame. intros k url. reflexivity.
Defined.

(** ** The job *)

(** X27. [run_agent_job] hands the outcome of [execute_agent_run] to the
    queue as it is: it returns when the execution returns, also for a run
    id that names no run, and it raises the same exception when the
    execution raises. In both cases the session is closed at the end, so
    nothing uncommitted is left, and closing changes nothing that was
    committed. "Agent job completed" is logged only when the execution
    returned. *)
Theorem X27_job_propagates_and_closes env run_id w :
  let started := add_logs [(INFO, "Agent job started")] w in
  let done_ := after (execute_agent_run env run_id) started in
  let w' := after (run_agent_job env run_id) w in
  outcome (run_agent_job env run_id) w
  = outcome (execute_agent_run env run_id) started
  /\ session w' = committed w'
  /\ committed w' = committed done_
  /\ observed w' = observed done_
  /\ logs w'
     = logs done_
       ++ match outcome (execute_agent_run env run_id) started with
          | Ok _ => [(INFO, "Agent job completed")]
          | Raise _ => []
          end.
Proof.
  cbv zeta. unfold outcome, after. rewrite run_agent_job_unfold.
  destruct (execute_agent_run env run_id _) as [[[]|e] w1]; cbn.
  - done.
  - by rewrite app_nil_r.
Qed.

(** ** A flush that fails *)

Lemma execute_agent_run_lost_endpoint env url post run_id w h r e :
  first_run run_id (session w) = Some (h, r) ->
  lost_session env r (session w) = Some e ->
  execute_agent_run (with_integration url post env) run_id w
  = execute_agent_run env run_id w.
Proof.
  intros Hrun Hlost.
  destruct (lost_session_some env r (session w) e Hlost) as (m & Htrig & _).
  destruct (execute_agent_run_stages env run_id w h r m Hrun Htrig)
    as (body & entries & mid & w3 & Hg & Hv & Hex & Hfe).
  destruct (execute_agent_run_stages (with_integration url post env)
              run_id w h r m Hrun Htrig)
    as (body' & entries' & mid' & w3' & Hg' & Hv' & Hex' & Hfe').
  change (_run_gemini_agent (with_integration url post env))
    with (_run_gemini_agent env) in Hg'.
  change (visualization (with_integration url post env))
    with (visualization env) in Hv'.
  rewrite Hg in Hg'. injection Hg' as <- Hw.
  apply app_inv_head in Hw. subst entries'.
  rewrite Hv in Hv'. injection Hv' as <- <-.
  rewrite Hex, Hex', Hfe, Hlost. done.
Qed.

(** What is recorded in [flush_error] on entry is not read: the first
    statement of [execute_agent_run] that reads it comes after the commit
    that marks the run as running. *)
Lemma execute_agent_run_new_transaction env run_id w e h r :
  first_run run_id (session w) = Some (h, r) ->
  execute_agent_run env run_id (fail_flush e w) = execute_agent_run env run_id w.
Proof.
  intros Hrun.
  destruct w as [[convs msgs runs meds dels] comm obs fls lgs slp clk uu q fe].
  cbn [session] in Hrun.
  unfold execute_agent_run, fail_flush. run_prims. rewrite Hrun.
  run_prims. reflexivity.
Qed.

(** X28. When the trigger text asks for a visualization and the flush of
    the Media row or of the Image message fails, the job raises
    [PendingRollbackError] and the run stays running: readers see no
    reply, no Image message, no Media row and no Delivery row, the session
    is closed, nothing was slept or enqueued, and the chart file stays on
    disk. The endpoint is not asked: the job does the same with every
    endpoint. *)
Theorem X28_failed_flush_leaves_run_running env run_id w h r e :
  first_run run_id (session w) = Some (h, r) ->
  lost_session env r (session w) = Some e ->
  let w' := after (run_agent_job env run_id) w in
  outcome (run_agent_job env run_id) w = Raise (PendingRollbackError e)
  /\ status_of run_id (committed w') = Some RunStatus.running
  /\ messages (committed w') = messages (session w)
  /\ media (committed w') = media (session w)
  /\ integration_deliveries (committed w') = integration_deliveries (session w)
  /\ session w' = committed w'
  /\ files w' = files w ++ [chart_path env (S (uuids w))]
  /\ slept w' = slept w
  /\ queue w' = queue w
  /\ (forall url post,
        run_agent_job (with_integration url post env) run_id w
        = run_agent_job env run_id w).
Proof.
  intros Hrun Hlost. cbv zeta.
  set (W := add_logs [(INFO, "Agent job started")] w).
  assert (HrunW : first_run run_id (session W) = Some (h, r)) by done.
  assert (HlostW : lost_session env r (session W) = Some e) by done.
  destruct (execute_agent_run_lost env run_id W h r e HrunW HlostW)
    as (w1 & Hex & Hcomm & _ & Hfiles & Hslept & _ & Hqueue & _).
  destruct (execute_agent_run_statuses env run_id W h r HrunW)
    as (res & w2 & new & Hex2 & _ & Hst).
  rewrite HlostW in Hst. destruct Hst as (_ & _ & Hstatus).
  rewrite Hex in Hex2. injection Hex2 as _ <-.
  split_and!.
  10:{ intros url post. rewrite !run_agent_job_unfold. fold W.
       by rewrite (execute_agent_run_lost_endpoint env url post run_id W h r e). }
  all: unfold outcome, after; rewrite run_agent_job_unfold; fold W; rewrite Hex.
  all: unfold after, close, modify; cbn [fst snd session committed files slept queue].
  all: try done.
  all: by rewrite Hcomm.
Qed.

Lemma X28_witness :
  let env := Cases.env_image_flush_fails in
  let w' := after (run_agent_job env 20) Example.world in
  outcome (run_agent_job env 20) Example.world
  = Raise (PendingRollbackError "could not serialize")
  /\ status_of 20 (committed w') = Some RunStatus.running
  /\ messages (committed w') = messages (session Example.world)
  /\ media (committed w') = media (session Example.world)
  /\ integration_deliveries (committed w')
     = integration_deliveries (session Example.world)
  /\ session w' = committed w'
  /\ files w' = files Example.world ++ [chart_path env (S (uuids Example.world))]
  /\ slept w' = slept Example.world
  /\ queue w' = queue Example.world
  /\ (forall url post,
        run_agent_job (with_integration url post env) 20 Example.world
        = run_agent_job env 20 Example.world).
Proof.
  apply (X28_failed_flush_leaves_run_running Cases.env_image_flush_fails 20
           Example.world 0 Example.run "could not serialize");
    reflexivity.
Defined.
